(** * validateArchive: a shallow embedding of [.github/workflows/validateArchive.py]

    The Python script checks a packaged set of Eclipse/STM32CubeIDE project
    descriptors.  This development embeds the functions of the script as Rocq
    functions and proves properties of them.

    Conventions of the embedding:
    - a Python [str] is a [string]; a character of the model is one byte, so a
      text is modelled by its UTF-8 encoding ([str.encode("utf-8")] is then the
      identity) and [str.lower] acts on the ASCII letters;
    - a Python [set] of strings is a [gset string], a [dict] keyed by strings a
      [gmap string _];
    - [None] results and raised exceptions are made explicit in the result
      types;
    - the unbounded [while] loops take a fuel argument together with a lemma
      that says which fuel is enough. *)

From Stdlib Require Import Ascii String ZArith Lia Sorted.
From stdpp Require Import base option list strings gmap sets pretty.

Local Open Scope char_scope.

(** ** Characters that have no literal of their own *)

Definition TAB : ascii := "009".
Definition LF : ascii := "010".
Definition CR : ascii := "013".
Definition DQUOTE : ascii := "034".
Definition SLASH : ascii := "/".

Local Close Scope char_scope.

Definition is_slash (c : ascii) : bool := Ascii.eqb c SLASH.

(** ** Python string primitives *)

Module Py.

(** [s.startswith(p)], also returning what follows the prefix. *)
Fixpoint strip_prefix (p s : string) : option string :=
  match p with
  | EmptyString => Some s
  | String a p' =>
      match s with
      | EmptyString => None
      | String b s' => if Ascii.eqb a b then strip_prefix p' s' else None
      end
  end.

Definition startswith (s p : string) : bool :=
  match strip_prefix p s with
  | Some _ => true
  | None => false
  end.

(** [s.endswith(p)] *)
Definition endswith (s p : string) : bool :=
  let n := String.length s in
  let k := String.length p in
  (k <=? n)%nat && String.eqb (String.substring (n - k) k s) p.

(** [s.rstrip("/")], which is also the loop
    [while s and s[-1] == "/": s = s[0:-1]]. *)
Fixpoint rstrip_slash (s : string) : string :=
  match s with
  | EmptyString => EmptyString
  | String c r =>
      match rstrip_slash r with
      | EmptyString => if is_slash c then EmptyString else String c EmptyString
      | r' => String c r'
      end
  end.

(** [s == "/" * len(s)] *)
Fixpoint all_slashes (s : string) : bool :=
  match s with
  | EmptyString => true
  | String c r => is_slash c && all_slashes r
  end.

(** Cut at the last slash: [(p[:i], p[i:])] for [i = p.rfind("/") + 1],
    [None] when [p] has no slash. *)
Fixpoint rsplit_slash (p : string) : option (string * string) :=
  match p with
  | EmptyString => None
  | String c r =>
      match rsplit_slash r with
      | Some (h, t) => Some (String c h, t)
      | None => if is_slash c then Some (String c EmptyString, r) else None
      end
  end.

(** [posixpath.dirname] *)
Definition dirname (p : string) : string :=
  match rsplit_slash p with
  | Some (head, _) => if all_slashes head then head else rstrip_slash head
  | None => EmptyString
  end.

(** [posixpath.basename] *)
Definition basename (p : string) : string :=
  match rsplit_slash p with
  | Some (_, tail) => tail
  | None => p
  end.

(** [s.split("/")] *)
Fixpoint split_slash (s : string) : list string :=
  match s with
  | EmptyString => [EmptyString]
  | String c r =>
      match split_slash r with
      | h :: t => if is_slash c then EmptyString :: h :: t else String c h :: t
      | [] => []
      end
  end.

(** ["/".join(args)] *)
Fixpoint join_slash (args : list string) : string :=
  match args with
  | [] => EmptyString
  | [a] => a
  | a :: rest => a +:+ String SLASH (join_slash rest)
  end.

(** [s.replace(old, new)] for a non-empty [old]: occurrences are found from
    the left and do not overlap.  [skip] counts the characters of a matched
    occurrence that are still to be dropped. *)
Fixpoint replace_from (old new : string) (skip : nat) (s : string) : string :=
  match s with
  | EmptyString => EmptyString
  | String c r =>
      match skip with
      | S k => replace_from old new k r
      | O =>
          if startswith s old
          then new +:+ replace_from old new (String.length old - 1) r
          else String c (replace_from old new 0 r)
      end
  end.

Definition replace (s old new : string) : string := replace_from old new 0 s.

(** [s.lower()] on the ASCII letters. *)
Definition lower_ascii (c : ascii) : ascii :=
  let n := nat_of_ascii c in
  if (65 <=? n)%nat && (n <=? 90)%nat then ascii_of_nat (n + 32) else c.

Fixpoint lower (s : string) : string :=
  match s with
  | EmptyString => EmptyString
  | String c r => String (lower_ascii c) (lower r)
  end.

(** The last character, [s[-1]]. *)
Fixpoint last_char (s : string) : option ascii :=
  match s with
  | EmptyString => None
  | String c EmptyString => Some c
  | String _ r => last_char r
  end.

End Py.

(** ** Path helpers (lines 36-61 of the script) *)

(** [myPathJoin], called on the list of its arguments:
    ["/".join(args).replace("//", "/")] *)
Definition myPathJoin (args : list string) : string :=
  Py.replace (Py.join_slash args) "//" "/".

(** [appendSlashIfMissing(s)] *)
Definition appendSlashIfMissing (s : string) : string :=
  match Py.last_char s with
  | Some c => if is_slash c then s else s +:+ "/"
  | None => s
  end.

(** [getParentDirectory(s)] *)
Definition getParentDirectory (s : string) : string :=
  appendSlashIfMissing (Py.dirname (Py.rstrip_slash s)).

(** [getBasename(s)] *)
Definition getBasename (s : string) : string :=
  Py.basename (Py.rstrip_slash s).

(** ** Relative paths (lines 962-969) *)

(** [re.match(r"(/\.\.)+$", res)]: one or more ["/.."], up to the end of the
    text or up to a final line feed. *)
Fixpoint dotdot_chain (res : string) : bool :=
  match res with
  | String a (String b (String c r)) =>
      is_slash a && Ascii.eqb b "." && Ascii.eqb c "." &&
      (String.eqb r EmptyString || String.eqb r (String LF EmptyString) || dotdot_chain r)
  | _ => false
  end.

(** One turn of the loop of [resolveRelative]. *)
Definition resolveRelative_step (res p : string) : string :=
  if String.eqb p ".." && negb (String.eqb res "/" || dotdot_chain res)
  then getParentDirectory res
  else if negb (String.eqb p ".") then myPathJoin [res; p]
  else res.

Definition resolveRelative (proj path : string) : string :=
  fold_left resolveRelative_step (Py.split_slash path) proj.

(** ** MCU families (lines 74-107) *)

Inductive McuFamily : Set :=
  | STM32C0 | STM32F0 | STM32F1 | STM32F2 | STM32F3 | STM32F4 | STM32F7
  | STM32L0 | STM32L1 | STM32L4 | STM32L5 | STM32H7 | STM32H5 | STM32WB
  | STM32WBA | STM32WL | STM32G0 | STM32GK | STM32G4 | STM32MP1 | STM32MP13
  | STM32MP2 | STM32U0 | STM32U5 | STM32N6.

#[export] Instance McuFamily_eq_dec : EqDecision McuFamily.
Proof. solve_decision. Defined.

(** The name of an enum member. *)
Definition McuFamily_name (f : McuFamily) : string :=
  match f with
  | STM32C0 => "STM32C0" | STM32F0 => "STM32F0" | STM32F1 => "STM32F1"
  | STM32F2 => "STM32F2" | STM32F3 => "STM32F3" | STM32F4 => "STM32F4"
  | STM32F7 => "STM32F7" | STM32L0 => "STM32L0" | STM32L1 => "STM32L1"
  | STM32L4 => "STM32L4" | STM32L5 => "STM32L5" | STM32H7 => "STM32H7"
  | STM32H5 => "STM32H5" | STM32WB => "STM32WB" | STM32WBA => "STM32WBA"
  | STM32WL => "STM32WL" | STM32G0 => "STM32G0" | STM32GK => "STM32GK"
  | STM32G4 => "STM32G4" | STM32MP1 => "STM32MP1" | STM32MP13 => "STM32MP13"
  | STM32MP2 => "STM32MP2" | STM32U0 => "STM32U0" | STM32U5 => "STM32U5"
  | STM32N6 => "STM32N6"
  end.

(** [McuFamily.__members__.items()], in the order of the declaration. *)
Definition McuFamily_members : list (string * McuFamily) :=
  map (λ f, (McuFamily_name f, f))
    [STM32C0; STM32F0; STM32F1; STM32F2; STM32F3; STM32F4; STM32F7;
     STM32L0; STM32L1; STM32L4; STM32L5; STM32H7; STM32H5; STM32WB;
     STM32WBA; STM32WL; STM32G0; STM32GK; STM32G4; STM32MP1; STM32MP13;
     STM32MP2; STM32U0; STM32U5; STM32N6].

(** [sorted(l, key=key, reverse=True)]: Python's sort is stable, also when
    reversed, so an element goes behind the elements whose key is at least
    its own. *)
Section SortedReverse.
Context {A : Type} (key : A → nat).

Fixpoint insert_reverse (x : A) (l : list A) : list A :=
  match l with
  | [] => [x]
  | y :: l' => if (key y <? key x)%nat then x :: l else y :: insert_reverse x l'
  end.

Definition sorted_reverse (l : list A) : list A :=
  fold_left (λ acc x, insert_reverse x acc) l [].
End SortedReverse.

(** [toMcuFamily(mcuName)]; [None] stands for the raised [LookupError]. *)
Definition toMcuFamily (mcuName : string) : option McuFamily :=
  let items := sorted_reverse (λ x, String.length x.1) McuFamily_members in
  snd <$> find (λ x, Py.startswith mcuName x.1) items.

(** ** MD5 ([hashlib.md5(...).hexdigest()], RFC 1321)

    The script fingerprints [sysmem.c] with the MD5 of the library; the
    function is written out so that fingerprints can be computed. *)

Module MD5.
Local Open Scope Z_scope.

Definition wrap32 (x : Z) : Z := Z.land x 0xFFFFFFFF.

Definition rotl32 (x c : Z) : Z :=
  wrap32 (Z.lor (Z.shiftl x c) (Z.shiftr x (32 - c))).

Definition not32 (x : Z) : Z := Z.lxor x 0xFFFFFFFF.

(** [K[i] = floor(2^32 * abs(sin(i + 1)))] *)
Definition K : list Z :=
  [0xd76aa478; 0xe8c7b756; 0x242070db; 0xc1bdceee; 0xf57c0faf; 0x4787c62a;
   0xa8304613; 0xfd469501; 0x698098d8; 0x8b44f7af; 0xffff5bb1; 0x895cd7be;
   0x6b901122; 0xfd987193; 0xa679438e; 0x49b40821; 0xf61e2562; 0xc040b340;
   0x265e5a51; 0xe9b6c7aa; 0xd62f105d; 0x02441453; 0xd8a1e681; 0xe7d3fbc8;
   0x21e1cde6; 0xc33707d6; 0xf4d50d87; 0x455a14ed; 0xa9e3e905; 0xfcefa3f8;
   0x676f02d9; 0x8d2a4c8a; 0xfffa3942; 0x8771f681; 0x6d9d6122; 0xfde5380c;
   0xa4beea44; 0x4bdecfa9; 0xf6bb4b60; 0xbebfbc70; 0x289b7ec6; 0xeaa127fa;
   0xd4ef3085; 0x04881d05; 0xd9d4d039; 0xe6db99e5; 0x1fa27cf8; 0xc4ac5665;
   0xf4292244; 0x432aff97; 0xab9423a7; 0xfc93a039; 0x655b59c3; 0x8f0ccc92;
   0xffeff47d; 0x85845dd1; 0x6fa87e4f; 0xfe2ce6e0; 0xa3014314; 0x4e0811a1;
   0xf7537e82; 0xbd3af235; 0x2ad7d2bb; 0xeb86d391].

(** The rotation of each round. *)
Definition S : list Z :=
  [7; 12; 17; 22; 7; 12; 17; 22; 7; 12; 17; 22; 7; 12; 17; 22;
   5; 9; 14; 20; 5; 9; 14; 20; 5; 9; 14; 20; 5; 9; 14; 20;
   4; 11; 16; 23; 4; 11; 16; 23; 4; 11; 16; 23; 4; 11; 16; 23;
   6; 10; 15; 21; 6; 10; 15; 21; 6; 10; 15; 21; 6; 10; 15; 21].

Definition bytes_of (s : string) : list Z :=
  map (λ c, Z.of_nat (nat_of_ascii c)) (list_ascii_of_string s).

(** The little-endian bytes of the low [8 * n] bits of [x]. *)
Fixpoint le_bytes (n : nat) (x : Z) : list Z :=
  match n with
  | O => []
  | Datatypes.S n' => Z.land x 0xFF :: le_bytes n' (Z.shiftr x 8)
  end.

Fixpoint le_word (bs : list Z) : Z :=
  match bs with
  | [] => 0
  | b :: bs' => Z.lor b (Z.shiftl (le_word bs') 8)
  end.

(** The message, the byte [0x80], zero bytes up to 56 modulo 64, and the
    length of the message in bits on 8 bytes. *)
Definition pad (msg : list Z) : list Z :=
  let n := Z.of_nat (length msg) in
  let zeros := Z.to_nat ((55 - n) mod 64) in
  msg ++ [0x80] ++ repeat 0 zeros ++ le_bytes 8 (8 * n).

(** The 16 words of a block of 64 bytes. *)
Fixpoint words (n : nat) (block : list Z) : list Z :=
  match n with
  | O => []
  | Datatypes.S n' => le_word (take 4 block) :: words n' (drop 4 block)
  end.

Definition round (M : list Z) (st : Z * Z * Z * Z) (i : nat) : Z * Z * Z * Z :=
  let '(A, B, C, D) := st in
  let iz := Z.of_nat i in
  let '(F, g) :=
    if iz <? 16 then (Z.lor (Z.land B C) (Z.land (not32 B) D), iz)
    else if iz <? 32 then (Z.lor (Z.land D B) (Z.land (not32 D) C), (5 * iz + 1) mod 16)
    else if iz <? 48 then (Z.lxor (Z.lxor B C) D, (3 * iz + 5) mod 16)
    else (Z.lxor C (Z.lor B (not32 D)), (7 * iz) mod 16) in
  let F' := wrap32 (F + A + nth i K 0 + nth (Z.to_nat g) M 0) in
  (D, wrap32 (B + rotl32 F' (nth i S 0)), B, C).

Definition block_step (st : Z * Z * Z * Z) (block : list Z) : Z * Z * Z * Z :=
  let M := words 16 block in
  let '(a0, b0, c0, d0) := st in
  let '(A, B, C, D) := fold_left (round M) (seq 0 64) st in
  (wrap32 (a0 + A), wrap32 (b0 + B), wrap32 (c0 + C), wrap32 (d0 + D)).

Fixpoint blocks (n : nat) (bs : list Z) : list (list Z) :=
  match n with
  | O => []
  | Datatypes.S n' => take 64 bs :: blocks n' (drop 64 bs)
  end.

Definition hex_digit (d : Z) : ascii :=
  ascii_of_nat (Z.to_nat (if d <? 10 then 48 + d else 87 + d)).

Definition hex_byte (b : Z) : string :=
  String (hex_digit (Z.shiftr b 4)) (String (hex_digit (Z.land b 0xF)) EmptyString).

Definition hexdigest (s : string) : string :=
  let bs := pad (bytes_of s) in
  let '(a, b, c, d) :=
    fold_left block_step (blocks (length bs / 64) bs)
      (0x67452301, 0xefcdab89, 0x98badcfe, 0x10325476) in
  String.concat EmptyString
    (map hex_byte (le_bytes 4 a ++ le_bytes 4 b ++ le_bytes 4 c ++ le_bytes 4 d)).
End MD5.

(** ** The fingerprint of [sysmem.c] (lines 64-70) *)

(** The length of the shortest prefix of [s] that ends with the two
    characters that close a block comment. *)
Fixpoint block_end (s : string) : option nat :=
  match s with
  | EmptyString => None
  | String a r =>
      if Ascii.eqb a "*" && Py.startswith r "/" then Some 2 else S <$> block_end r
  end.

(** [re.sub(r'/\*.*?\*/', '', content, flags=re.S)]: from the left, each
    opening pair that has a closing pair behind it is removed up to the
    nearest one.  [skip] counts the characters of a match still to drop. *)
Fixpoint sub_block_comments (skip : nat) (s : string) : string :=
  match s with
  | EmptyString => EmptyString
  | String c r =>
      match skip with
      | S k => sub_block_comments k r
      | O =>
          match Py.strip_prefix "/*" s ≫= block_end with
          | Some n => sub_block_comments (n + 1) r
          | None => String c (sub_block_comments 0 r)
          end
      end
  end.

(** [Some tail] when [s] has no line feed except, possibly, as its last
    character; [tail] is that line feed, or empty. *)
Fixpoint last_line_tail (s : string) : option string :=
  match s with
  | EmptyString => Some EmptyString
  | String c r =>
      if Ascii.eqb c LF
      then (if String.eqb r EmptyString then Some (String LF EmptyString) else None)
      else last_line_tail r
  end.

(** [re.sub(r'//.*$', '', content)].  The flag [re.M] is not given: ["$"]
    holds at the end of the text and before a line feed that ends the text, and
    ["."] does not cross a line feed, so a match starts in the last line. *)
Fixpoint sub_line_comment (s : string) : string :=
  match s with
  | EmptyString => EmptyString
  | String c r =>
      match Py.strip_prefix "//" s ≫= last_line_tail with
      | Some tail => tail
      | None => String c (sub_line_comment r)
      end
  end.

(** [re.sub(r'\r', '', content)] *)
Fixpoint sub_cr (s : string) : string :=
  match s with
  | EmptyString => EmptyString
  | String c r => if Ascii.eqb c CR then sub_cr r else String c (sub_cr r)
  end.

(** What is left of the content when the three substitutions are done. *)
Definition sysmem_normal_form (content : string) : string :=
  sub_cr (sub_line_comment (sub_block_comments 0 content)).

Definition toSysmemHash (content : string) : string :=
  MD5.hexdigest (sysmem_normal_form content).

(** ** Exceptions, results and the state of a run *)

(** The exceptions that the modelled code can raise.  [NonTermination] is not
    a Python exception: it marks a loop that has used up its fuel. *)
Inductive exn : Set :=
  | IndexError | KeyError | TypeError | AttributeError | ValueError
  | LookupError | StopIteration | NotImplementedError | ParseError | OSError
  | NonTermination.

Inductive result (A : Type) : Type :=
  | Ok (a : A)
  | Raise (e : exn).
Arguments Ok {A} a.
Arguments Raise {A} e.

#[export] Instance result_ret : MRet result := @Ok.
#[export] Instance result_bind : MBind result :=
  λ A B f r, match r with Ok a => f a | Raise e => Raise e end.
#[export] Instance result_fmap : FMap result :=
  λ A B f r, match r with Ok a => Ok (f a) | Raise e => Raise e end.

(** The mutable state of a run: the lines handed to [Main.print], oldest
    first, and [Main.link_validation_cache].  [Main.print] renders a line (the
    Jenkins prefix) or drops it (the codes of [--exclude]) on its way to the
    log file; the model records the argument of [Main.print].
    [Main.dom_cache] memoises a function of the read-only archives and is left
    out. *)
Record State : Type := mkState {
  log : list string;
  link_validation_cache : gset string
}.

Definition M (A : Type) : Type := State → result A * State.

Definition ret {A} (a : A) : M A := λ st, (Ok a, st).

Definition bind {A B} (c : M A) (k : A → M B) : M B :=
  λ st, match c st with
        | (Ok a, st') => k a st'
        | (Raise e, st') => (Raise e, st')
        end.

Definition lift {A} (r : result A) : M A := λ st, (r, st).

Notation "x <- c ;; k" := (bind c (λ x, k))
  (at level 100, c at next level, right associativity).
Notation "c ;; k" := (bind c (λ _, k))
  (at level 100, right associativity).

(** [self.print(s)] *)
Definition print (s : string) : M unit :=
  λ st, (Ok tt, mkState (log st ++ [s]) (link_validation_cache st)).

(** [template.format(args...)] for templates whose only fields are ["{}"]: the
    fields take the arguments in turn, and a field without an argument raises
    [IndexError]. *)
Fixpoint format (template : string) (args : list string) : result string :=
  match template with
  | EmptyString => Ok EmptyString
  | String c r =>
      match r with
      | String c' r' =>
          if Ascii.eqb c "{" && Ascii.eqb c' "}"
          then match args with
               | a :: args' => String.append a <$> format r' args'
               | [] => Raise IndexError
               end
          else String c <$> format r args
      | EmptyString => Ok (String c EmptyString)
      end
  end.

(** [self.print(template.format(args...))] *)
Definition report (template : string) (args : list string) : M unit :=
  s <- lift (format template args) ;; print s.

(** [str(x)] for a value that is a string or [None]. *)
Definition str_opt (x : option string) : string := default "None" x.

(** [repr] of a list of names, as [str.format] shows it.  The characters of a
    name are shown as they are. *)
Definition repr_name (x : option string) : string :=
  match x with
  | Some s => "'" +:+ s +:+ "'"
  | None => "None"
  end.

Definition repr_list (l : list (option string)) : string :=
  "[" +:+ String.concat ", " (map repr_name l) +:+ "]".

(** Running a computation from a state: what it returned and what it added
    to the log. *)
Definition run {A} (c : M A) (st : State) : result A * State := c st.

(** ** XML documents ([xml.etree.ElementTree]) *)

#[warnings="-register-all"]
Inductive Element : Type :=
  Elem (tag : string) (attrib : gmap string string) (text : option string)
       (children : list Element).

Definition tag (e : Element) : string := let 'Elem t _ _ _ := e in t.
Definition attrib (e : Element) : gmap string string := let 'Elem _ a _ _ := e in a.
Definition text (e : Element) : option string := let 'Elem _ _ t _ := e in t.
Definition children (e : Element) : list Element := let 'Elem _ _ _ c := e in c.

(** The elements below [e] in document order, [e] excluded. *)
Fixpoint descendants (e : Element) : list Element :=
  let 'Elem _ _ _ cs := e in
  (fix below (l : list Element) : list Element :=
     match l with
     | [] => []
     | c :: l' => c :: descendants c ++ below l'
     end) cs.

(** The steps of the paths that the script hands to [find] and [findall]:
    [.//tag], [/tag] (also [./tag]) and [[@key='value']]. *)
Inductive Step : Type :=
  | Descendant (t : string)
  | Child (t : string)
  | HasAttr (key value : string).

Definition step_nodes (s : Step) (ctx : list Element) : list Element :=
  match s with
  | Descendant t => e ← ctx; filter (λ d, tag d = t) (descendants e)
  | Child t => e ← ctx; filter (λ d, tag d = t) (children e)
  | HasAttr k v => filter (λ e, attrib e !! k = Some v) ctx
  end.

Definition findall (path : list Step) (e : Element) : list Element :=
  fold_left (λ ctx s, step_nodes s ctx) path [e].

Definition find (path : list Step) (e : Element) : option Element :=
  head (findall path e).

(** ** Archives (class [Archive], lines 110-164) *)

(** What the script asks of [zipfile.ZipFile]: the stored names, and the
    decoded content of a stored entry ([None] when opening, reading or
    decoding raises). *)
Record ZipFile : Type := mkZipFile {
  namelist : list string;
  zread : string → option string
}.

(** What the script asks of a directory on the host: its absolute path, the
    paths that [pathlib.Path(root_path).glob("**/*")] yields, each with the
    answer of [os.path.isdir], and the decoded content of a host file. *)
Record Directory : Type := mkDirectory {
  root_path : string;
  glob : list (string * bool);
  fread : string → option string
}.

Inductive Source : Type :=
  | ZipSource (zf : ZipFile)
  | DirSource (d : Directory).

(** An [Archive] object: [__model] and where it came from.  A value of
    [__model] is the stored name (or host path) of the entry, [None] for a
    directory that was added for its children. *)
Record Archive : Type := mkArchive {
  model : gmap string (option string);
  source : Source
}.

(** The loop of lines 142-146.  It goes on until [tmp] is ["/"]. *)
Fixpoint add_parents (fuel : nat) (tmp : string) (mdl : gmap string (option string))
  : result (gmap string (option string)) :=
  if String.eqb tmp "/" then Ok mdl
  else match fuel with
       | O => Raise NonTermination
       | S fuel' =>
           let tmp' := getParentDirectory tmp in
           let parent := appendSlashIfMissing tmp' in
           add_parents fuel' tmp'
             (match mdl !! parent with
              | Some _ => mdl
              | None => <[parent := None]> mdl
              end)
       end.

(** One turn of the loop over [zf.namelist()] (lines 132-146). *)
Definition add_zip_entry (mdl : gmap string (option string)) (x : string)
  : result (gmap string (option string)) :=
  match x with
  | EmptyString => Raise IndexError
  | String c _ =>
      let tmp := if is_slash c then x else "/" +:+ x in
      add_parents (String.length tmp) tmp (<[tmp := Some x]> mdl)
  end.

(** [s[n:]] *)
Fixpoint drop_chars (n : nat) (s : string) : string :=
  match n, s with
  | S n', String _ r => drop_chars n' r
  | _, _ => s
  end.

(** One turn of the loop over the paths of a directory (lines 119-129). *)
Definition add_dir_entry (root : string) (mdl : gmap string (option string))
    (entry : string * bool) : result (gmap string (option string)) :=
  let '(x, isdir) := entry in
  let tmp := if isdir then appendSlashIfMissing x else x in
  let tmp := drop_chars (String.length root) tmp in
  match tmp with
  | EmptyString => Raise IndexError
  | String c _ =>
      let tmp := if is_slash c then tmp else "/" +:+ tmp in
      Ok (<[tmp := Some x]> mdl)
  end.

(** A loop [for x in l] whose body may raise. *)
Fixpoint foldM_result {A B} (f : A → B → result A) (a : A) (l : list B) : result A :=
  match l with
  | [] => Ok a
  | x :: l' => a' ← f a x; foldM_result f a' l'
  end.

(** [Archive.__init__].  [os_name] is [os.name] of the host. *)
Definition Archive_init (os_name : string) (src : Source) : result Archive :=
  match src with
  | DirSource d =>
      if String.eqb os_name "nt" then Raise NotImplementedError
      else mdl ← foldM_result (add_dir_entry (root_path d)) ∅ (glob d);
           Ok (mkArchive mdl src)
  | ZipSource zf =>
      mdl ← foldM_result add_zip_entry ∅ (namelist zf);
      Ok (mkArchive mdl src)
  end.

(** [Archive.getFilenames] *)
Definition Archive_getFilenames (a : Archive) : gset string := dom (model a).

(** [Archive.getFileContent]; [None] stands for any exception it raises (its
    only caller catches them all). *)
Definition Archive_getFileContent (a : Archive) (path : string) : option string :=
  match source a with
  | DirSource d => fread d (myPathJoin [root_path d; path])
  | ZipSource zf =>
      match model a !! path with
      | Some (Some x) => zread zf x
      | _ => None
      end
  end.

(** ** The validator (class [Main]) *)

Record Options : Type := mkOptions {
  pedantic : bool;
  forceCubeIDE : bool;
  sysmem_file : option string;
  jenkinsParser : bool;
  error_to_exclude : option string;
  file_to_skip : option string;
  debug_option : bool
}.

Record Main : Type := mkMain {
  options : Options;
  archives : list Archive;
  names : gset string;
  lc_names : gset string;
  SYSMEM_C_HASH : string
}.

(** The truth value of an optional string: neither [None] nor empty. *)
Definition truthy (x : option string) : bool :=
  match x with
  | Some (String _ _) => true
  | _ => false
  end.

(** [Main.__init__] (lines 167-184).  [host_read] gives the text of a file of
    the host ([None]: it cannot be opened). *)
Definition Main_init (host_read : string → option string) (opts : Options)
    (archs : list Archive) : M Main :=
  let archs' := reverse archs in
  let nms : gset string := ⋃ (Archive_getFilenames <$> archs') in
  let lc : gset string := set_map Py.lower nms in
  if truthy (sysmem_file opts) then
    match host_read (str_opt (sysmem_file opts)) with
    | Some content =>
        let h := toSysmemHash content in
        report "Overriding sysmem.c hash to: {}" [h] ;;
        ret (mkMain opts archs' nms lc h)
    | None => lift (Raise OSError)
    end
  else ret (mkMain opts archs' nms lc "f757d275b06e3ed0cab2a4da40a6b131").

(** [Main.list(root, func)] (lines 205-209).  The order in which Python
    goes through a set is not specified; the model takes that of
    [elements]. *)
Definition Main_list (m : Main) (root : option string) (func : string → bool)
  : list string :=
  let root := appendSlashIfMissing <$> root in
  filter (λ p, (match root with
                | None => true
                | Some r => Py.startswith p r && negb (String.eqb p r)
                end) && func p = true)
         (elements (names m)).

Definition isProjectDir (x : string) : bool :=
  bool_decide (getBasename x ∈ ["EWARM"; "MDK-ARM"; "STM32CubeIDE"; "TrueSTUDIO"; "SW4STM32"]).

Definition isProjectFile (x : string) : bool := String.eqb (getBasename x) ".project".

Definition isScript (name : string) : bool :=
  Py.endswith name ".py" || Py.endswith name ".sh" || Py.endswith name ".bat".

(** [Main.listEclipseProjects(root)] *)
Definition listEclipseProjects (m : Main) (root : option string) : list string :=
  getParentDirectory <$> Main_list m root isProjectFile.

(** [Main.listProjects()] *)
Definition listProjects (m : Main) : list string :=
  if forceCubeIDE (options m) then listEclipseProjects m None
  else getParentDirectory <$> Main_list m None isProjectDir.

(** [Main.listScripts()] *)
Definition listScripts (m : Main) : list string := Main_list m None isScript.

(** [Main.getFileContent(path)] (lines 234-241) *)
Definition Main_getFileContent (m : Main) (path : string) : option string :=
  if bool_decide (path ∈ names m)
  then head (omap (λ a, Archive_getFileContent a path) (archives m))
  else None.

(** [sorted(list(set(l)))] *)
Fixpoint insert_sorted (x : string) (l : list string) : list string :=
  match l with
  | [] => [x]
  | y :: l' => if String.leb x y then x :: l else y :: insert_sorted x l'
  end.

Definition sorted_set (l : list string) : list string :=
  foldr insert_sorted [] (elements (list_to_set l : gset string)).

(** ** Loops and checks in the monad *)

Fixpoint foldM {A B} (f : A → B → M A) (a : A) (l : list B) : M A :=
  match l with
  | [] => ret a
  | x :: l' => a' <- f a x ;; foldM f a' l'
  end.

(** The pattern [if cond: self.print(template.format(...)); valid = False]. *)
Definition flag (cond : bool) (template : string) (args : list string)
    (valid : bool) : M bool :=
  if cond then report template args ;; ret false else ret valid.

(** [tab t] is the text [t] behind a tabulation, as in ["\t..."]. *)
Definition tab (t : string) : string := String TAB t.

(** ** Symbolic paths (lines 895-901, 956-969 and 1051-1058) *)

(** The characters before the first line feed: what [".*"] can take. *)
Fixpoint first_line (s : string) : string :=
  match s with
  | EmptyString => EmptyString
  | String c r => if Ascii.eqb c LF then EmptyString else String c (first_line r)
  end.

(** The text before the last closing brace, if there is one. *)
Fixpoint before_last_brace (s : string) : option string :=
  match s with
  | EmptyString => None
  | String c r =>
      match before_last_brace r with
      | Some t => Some (String c t)
      | None => if Ascii.eqb c "}" then Some EmptyString else None
      end
  end.

(** The optional quotation mark at the head of both patterns of
    [__resolve]. *)
Definition skip_quote (s : string) : string :=
  match s with
  | String c r => if Ascii.eqb c DQUOTE then r else s
  | EmptyString => s
  end.

(** The first [re.match] of [__resolve] (line 896), giving
    [m.group(1) + m.group(2)]: an optional quotation mark, the text
    [${workspace_loc:/${ProjName}/], a first group, a closing brace, a second
    group and an optional quotation mark.  The first group is greedy and goes
    up to the last closing brace of the line; the second one is lazy and
    nothing that must match follows it, so it is empty. *)
Definition match_workspace_projname (value : string) : option string :=
  rest ← Py.strip_prefix "${workspace_loc:/${ProjName}/" (skip_quote value);
  g1 ← before_last_brace (first_line rest);
  Some (g1 +:+ EmptyString).

(** The second [re.match] of [__resolve] (line 899): an optional quotation
    mark, then [${workspace_loc:] or [${ProjName]. *)
Definition match_workspace_variable (value : string) : bool :=
  Py.startswith (skip_quote value) "${workspace_loc:"
  || Py.startswith (skip_quote value) "${ProjName".

(** [Main.removeQuotation] *)
Definition removeQuotation (s : string) : string :=
  match s with
  | String c r =>
      if (2 <=? String.length s)%nat && Ascii.eqb c DQUOTE
         && bool_decide (Py.last_char s = Some DQUOTE)
      then String.substring 0 (String.length r - 1) r
      else s
  | EmptyString => s
  end.

(** [Main.__resolve]; the inner [None] is the "cannot verify" answer, and a
    [value] that is [None] makes [re.match] raise. *)
Definition resolve (proj build_path : string) (value : option string)
  : result (option string) :=
  match value with
  | None => Raise TypeError
  | Some value =>
      match match_workspace_projname value with
      | Some rel => Ok (Some (resolveRelative proj rel))
      | None =>
          if negb (match_workspace_variable value)
          then Ok (Some (resolveRelative build_path (removeQuotation value)))
          else Ok None
      end
  end.

Definition is_digit (c : ascii) : bool :=
  let n := nat_of_ascii c in (48 <=? n)%nat && (n <=? 57)%nat.

(** The longest run of digits at the head of [s], read as a number, and what
    follows it; [None] when [s] does not start with a digit. *)
Fixpoint read_digits (acc : option nat) (s : string) : option (nat * string) :=
  match s with
  | String c r =>
      if is_digit c
      then read_digits (Some (10 * default 0 acc + (nat_of_ascii c - 48))) r
      else (λ n, (n, s)) <$> acc
  | EmptyString => (λ n, (n, s)) <$> acc
  end.

Definition skip_optional (p s : string) : string :=
  default s (Py.strip_prefix p s).

(** The [re.match] of [resolveLink] (line 1052): an optional [$%7B], the
    text [PARENT-], a number, the text [-PROJECT_LOC], an optional [%7D], a
    slash and the rest of the line.  It gives the number and the rest. *)
Definition match_parent_loc (uri : string) : option (nat * string) :=
  s ← Py.strip_prefix "PARENT-" (skip_optional "$%7B" uri);
  '(n, s) ← read_digits None s;
  s ← Py.strip_prefix "-PROJECT_LOC" s;
  s ← Py.strip_prefix "/" (skip_optional "%7D" s);
  Some (n, first_line s).

(** [Main.resolveLink] *)
Definition resolveLink (proj : string) (eclipseUri : option string) : result string :=
  match eclipseUri with
  | None => Raise TypeError
  | Some uri =>
      match match_parent_loc uri with
      | Some (n, rest) => Ok (myPathJoin [Nat.iter n getParentDirectory proj; rest])
      | None => Ok uri
      end
  end.

(** [myPathJoin(proj, dest)] when [dest] may be [None]. *)
Definition myPathJoin_opt (proj : string) (dest : option string) : result string :=
  match dest with
  | Some d => Ok (myPathJoin [proj; d])
  | None => Raise TypeError
  end.

(** ** Linked resources (lines 971-1049) *)

(** The loop "destination does not hide other resources" of
    [validateFileLink] and [validateDirLink]. *)
Fixpoint hides_walk (m : Main) (fuel : nat) (p : string) (valid : bool) : M bool :=
  λ st,
    if bool_decide (p ∈ link_validation_cache st) then (Ok valid, st)
    else if bool_decide (Py.lower p ∈ lc_names m) && bool_decide (p ∉ names m)
    then (report ("{}: " +:+ tab "{} hides other resources") ["ER051"; p] ;; ret false) st
    else if String.eqb p EmptyString || String.eqb p "/" then (Ok valid, st)
    else match fuel with
         | O => (Raise NonTermination, st)
         | S fuel' =>
             hides_walk m fuel' (getParentDirectory p) valid
               (mkState (log st) ({[p]} ∪ link_validation_cache st))
         end.

(** The check "source exists" of both functions. *)
Definition source_exists (m : Main) (resolved : string) : M bool :=
  if bool_decide (resolved ∉ names m) then
    (if bool_decide (Py.lower resolved ∈ lc_names m)
     then report ("{}: " +:+ tab "{} has wrong case in archive") ["ER049"; resolved]
     else report ("{}: " +:+ tab "{} missing from archive") ["ER050"; resolved]) ;;
    ret false
  else ret true.

(** [Main.validateFileLink] *)
Definition validateFileLink (m : Main) (proj : string) (src dest : option string)
  : M bool :=
  resolved <- lift (resolveLink proj src) ;;
  valid <- source_exists m resolved ;;
  p <- lift (myPathJoin_opt proj dest) ;;
  hides_walk m (String.length p) p valid.

(** [Main.validateDirLink] *)
Definition validateDirLink (m : Main) (proj : string) (src dest : option string)
  : M bool :=
  valid <- (if bool_decide (src ≠ Some "virtual:/virtual")
            then resolved <- lift (resolveLink proj src) ;;
                 source_exists m (appendSlashIfMissing resolved)
            else ret true) ;;
  p <- lift (myPathJoin_opt proj dest) ;;
  let p := appendSlashIfMissing p in
  hides_walk m (String.length p) p valid.

(** ** Project descriptors *)

Definition CNATURE : string := "org.eclipse.cdt.core.cnature".
Definition CCNATURE : string := "org.eclipse.cdt.core.ccnature".
Definition ROOT_NATURE : string := "com.st.stm32cube.ide.mcu.MCURootProjectNature".
Definition TZ_DISABLED_NATURE : string :=
  "com.st.stm32cube.ide.mcu.MCUEndUserDisabledTrustZoneProjectNature".
Definition SECURE_NATURE : string := "com.st.stm32cube.ide.mcu.MCUSecureProjectNature".
Definition NONSECURE_NATURE : string := "com.st.stm32cube.ide.mcu.MCUNonSecureProjectNature".
Definition MULTICPU_NATURE : string := "com.st.stm32cube.ide.mcu.MCUMultiCpuProjectNature".

(** The path [.//storageModule[@moduleId='cdtBuildSystem']/configuration]. *)
Definition CONFIGURATIONS : list Step :=
  [Descendant "storageModule"; HasAttr "moduleId" "cdtBuildSystem"; Child "configuration"].

(** The path [.//option[@superClass='name']]. *)
Definition OPTION (name : string) : list Step :=
  [Descendant "option"; HasAttr "superClass" name].

(** [x and x[-1] == "/"] *)
Definition isDirectory (x : string) : bool :=
  bool_decide (Py.last_char x = Some SLASH).

(** The pattern of [isEclipseBasedIde] (line 258) behind the escaped
    project root and the name of the IDE: any number of groups made of a
    slash and one or more characters, then a slash, one character and
    [project], up to the end of the text or a final line feed.  A group may
    hold slashes, so the groups together are empty or a slash and at least one
    character. *)
Definition match_dot_project (rest : string) : bool :=
  let n := String.length rest in
  let rest := if Py.endswith rest (String LF EmptyString)
              then String.substring 0 (n - 1) rest else rest in
  let n := String.length rest in
  String.eqb (first_line rest) rest
  && Py.startswith rest "/"
  && Py.startswith (String.substring (n - 9) 9 rest) "/"
  && Py.endswith rest "project"
  && ((n =? 9)%nat || (11 <=? n)%nat).

Definition match_ide_project (projRoot x : string) : bool :=
  match Py.strip_prefix (appendSlashIfMissing projRoot) x with
  | Some r =>
      match Py.strip_prefix "STM32CubeIDE" r, Py.strip_prefix "TrueSTUDIO" r,
            Py.strip_prefix "SW4STM32" r with
      | Some rest, _, _ | None, Some rest, _ | None, None, Some rest =>
          match_dot_project rest
      | None, None, None => false
      end
  | None => false
  end.

Section Descriptors.

(** [ET.fromstring]; [None] stands for the [ParseError] it raises. *)
Variable fromstring : string → option Element.

(** [Main.__getDOM] *)
Definition getDOM (m : Main) (path : string) : result (option Element) :=
  match Main_getFileContent m path with
  | Some content =>
      match fromstring content with
      | Some root => Ok (Some root)
      | None => Raise ParseError
      end
  | None => Ok None
  end.

(** [Main.getEclipseProjectName] *)
Definition getEclipseProjectName (m : Main) (proj : string) : result (option string) :=
  root ← getDOM m (myPathJoin [proj; ".project"]);
  match root with
  | Some root =>
      match find [Descendant "name"] root with
      | Some n => Ok (text n)
      | None => Raise AttributeError
      end
  | None => Ok None
  end.

(** [Main.getEclipseNatures]; the empty list that stands for "no
    descriptor" is the empty set. *)
Definition getEclipseNatures (m : Main) (proj : string) : result (gset (option string)) :=
  root ← getDOM m (myPathJoin [proj; ".project"]);
  match root with
  | Some root => Ok (list_to_set (text <$> findall [Descendant "natures"; Child "nature"] root))
  | None => Ok ∅
  end.

(** [Main.getEclipseProjectReferences] *)
Definition getEclipseProjectReferences (m : Main) (proj : string)
  : result (option (gset (option string))) :=
  root ← getDOM m (myPathJoin [proj; ".project"]);
  match root with
  | Some root =>
      Ok (Some (list_to_set (text <$> findall [Descendant "projects"; Child "project"] root)))
  | None => Ok None
  end.

(** [Main.getMcusForCubeIDEPRoject] *)
Definition getMcusForCubeIDEPRoject (m : Main) (proj : string) : result (gset string) :=
  root ← getDOM m (myPathJoin [proj; ".cproject"]);
  match root with
  | Some root =>
      Ok (list_to_set
            (omap (λ o, match attrib o !! "value" with
                        | Some (String c r) => Some (String c r)
                        | _ => None
                        end)
               (findall (CONFIGURATIONS ++ [Child "folderInfo"; Child "toolChain"; Child "option";
                           HasAttr "superClass"
                             "com.st.stm32cube.ide.mcu.gnu.managedbuild.option.target_mcu"])
                  root)))
  | None => Ok ∅
  end.

(** [Main.isEclipseBasedIde] *)
Definition isEclipseBasedIde (m : Main) (projRoot : string) : result bool :=
  if forceCubeIDE (options m) then Ok true
  else
    (fix scan (paths : list string) : result bool :=
       match paths with
       | [] => Ok false
       | path :: paths' =>
           projName ← getEclipseProjectName m path;
           if bool_decide (projName ≠ None) then Ok true else scan paths'
       end)
      (getParentDirectory <$> Main_list m (Some projRoot) (match_ide_project projRoot)).

(** ** [sysmem.c] (lines 784-796) *)

Definition isSysmemC (x : string) : bool :=
  String.eqb (Py.lower (Py.basename x)) "sysmem.c".

Definition validateSysmemC (m : Main) (proj : string) : M bool :=
  foldM (λ valid sysmemFile,
           match Main_getFileContent m sysmemFile with
           | None => lift (Raise TypeError)
           | Some content =>
               flag (negb (String.eqb (SYSMEM_C_HASH m) (toSysmemHash content)))
                 ("{} : " +:+ tab "Unexpected sysmem.c content located at {}")
                 ["ER035"; sysmemFile] valid
           end)
    true (Main_list m (Some proj) isSysmemC).

(** ** Options of a build configuration (lines 903-954) *)

(** [Main.__validateIncludePathsOption].  The templates of the first two
    messages have one field more than they are given arguments. *)
Definition validateIncludePathsOption (m : Main) (proj build_path : string)
    (option : Element) (tool : string) : M bool :=
  foldM (λ valid listOptionValue,
           let value := attrib listOptionValue !! "value" in
           if bool_decide (value = Some EmptyString) then
             report ("{}: " +:+ tab (" {} include path " +:+ String DQUOTE (String DQUOTE
                       " should not be listed : {}"))) ["ER045"; tool] ;;
             ret false
           else
             resolved <- lift (resolve proj build_path value) ;;
             match resolved with
             | None =>
                 report ("{}: " +:+ tab " {} include path {} cannot be verified : {}")
                   ["ER046"; tool; str_opt value] ;;
                 ret false
             | Some resolved =>
                 match Py.last_char resolved with
                 | None => lift (Raise IndexError)
                 | Some c =>
                     let resolved := if is_slash c then resolved else resolved +:+ "/" in
                     if bool_decide (resolved ∉ names m) then
                       (if bool_decide (Py.lower resolved ∈ lc_names m)
                        then report ("{}: " +:+ tab " {} include path {} has wrong case in archive")
                               ["ER047"; tool; resolved]
                        else report ("{}:  " +:+ tab " {} include path {} missing from archive")
                               ["ER048"; tool; resolved]) ;;
                       ret false
                     else ret valid
                 end
             end)
    true (children option).

(** [Main.__validateLinkerScriptOption].  The template of the first
    message has one field more than it is given arguments. *)
Definition validateLinkerScriptOption (m : Main) (proj build_path : string)
    (option : Element) (tool : string) : M bool :=
  let value := attrib option !! "value" in
  resolved <- lift (resolve proj build_path value) ;;
  match resolved with
  | None =>
      report ("{}: " +:+ tab " {} linker script {} cannot be verified : {}")
        ["ER049"; tool; str_opt value] ;;
      ret false
  | Some resolved =>
      if bool_decide (resolved ∉ names m) then
        (if bool_decide (Py.lower resolved ∈ lc_names m)
         then report ("{}: " +:+ tab " {} linker script {} has wrong case in archive")
                ["ER050"; tool; resolved]
         else report ("{}: " +:+ tab " {} linker script {} missing from archive")
                ["ER051"; tool; resolved]) ;;
        ret false
      else ret true
  end.

End Descriptors.

(** ** STM32CubeIDE projects (lines 464-781) *)

Definition TOOL : string := "com.st.stm32cube.ide.mcu.gnu.managedbuild.tool.".

Definition is_TrustZone_family (f : option McuFamily) : bool :=
  bool_decide (f = Some STM32L5 ∨ f = Some STM32U5).

(** The text that [str.format] shows for a set of names. *)
Definition repr_set (s : gset string) : string :=
  "{" +:+ String.concat ", " (map (λ x, repr_name (Some x)) (elements s)) +:+ "}".

Section CubeIDE.

Variable fromstring : string → option Element.

(** Lines 471-488: the target MCUs of the project, or else of the
    directories below it, and their family. *)
Definition projectMcus (m : Main) (proj : string) : result (gset string) :=
  mcus ← getMcusForCubeIDEPRoject fromstring m proj;
  if bool_decide (mcus = ∅)
  then foldM_result
         (λ acc child, s ← getMcusForCubeIDEPRoject fromstring m child; Ok (acc ∪ s))
         mcus (Main_list m (Some proj) isDirectory)
  else Ok mcus.

Definition determineMcuFamily (mcus : gset string) (valid : bool)
  : M (bool * option McuFamily) :=
  valid <- flag (bool_decide (mcus = ∅))
             ("{}: " +:+ tab "Unable to determine MCU for project") ["ER012"] valid ;;
  mcuFamily <- lift (match elements mcus with
                     | [] => Raise StopIteration
                     | x :: _ => match toMcuFamily x with
                                 | Some f => Ok f
                                 | None => Raise LookupError
                                 end
                     end) ;;
  if bool_decide (size mcus ≠ 1) then
    report ("{}: " +:+ tab "More than one MCU defined. Only basic validation will be performed!: {}")
      ["ER013"; repr_set mcus] ;;
    ret (false, None)
  else ret (valid, Some mcuFamily).

(** Lines 495-505: does a directory below the root carry the secure, the
    non-secure nature? *)
Definition childNatureFlags (m : Main) (proj : string) : result (bool * bool) :=
  foldM_result
    (λ '(hasSecureChild, hasNonSecureChild) child,
       childNatures ← getEclipseNatures fromstring m child;
       Ok (hasSecureChild || bool_decide (Some SECURE_NATURE ∈ childNatures),
           hasNonSecureChild || bool_decide (Some NONSECURE_NATURE ∈ childNatures)))
    (false, false) (Main_list m (Some proj) isDirectory).

(** Lines 492-515 *)
Definition validateTrustZoneChildren (m : Main) (proj : string)
    (natures : gset (option string)) (mcuFamily : option McuFamily) (valid : bool)
  : M bool :=
  if is_TrustZone_family mcuFamily && bool_decide (Some TZ_DISABLED_NATURE ∉ natures) then
    flags <- lift (childNatureFlags m proj) ;;
    let '(hasSecureChild, hasNonSecureChild) := flags in
    valid <- flag (negb hasSecureChild)
               ("{}: " +:+ tab "Secure project missing : {} ") ["ER014"; proj] valid ;;
    flag (negb hasNonSecureChild)
      ("{}: " +:+ tab "Non-secure project missing : {}") ["ER015"; proj] valid
  else ret valid.

(** Lines 490-532.  The second component says that the function returns
    here. *)
Definition validateRootProject (m : Main) (proj : string) (projectName : option string)
    (natures : gset (option string)) (mcuFamily : option McuFamily) (valid : bool)
  : M (bool * bool) :=
  if bool_decide (Some ROOT_NATURE ∈ natures) then
    valid <- validateTrustZoneChildren m proj natures mcuFamily valid ;;
    let dirname := getBasename proj in
    valid <- flag (negb (String.eqb dirname "STM32CubeIDE")
                   && bool_decide (Some dirname ≠ projectName))
               ("{}: " +:+ tab ("Project name " +:+ String DQUOTE ("{}" +:+ String DQUOTE
                  (" does not match directory name " +:+ String DQUOTE ("{}" +:+
                     String DQUOTE ".")))))
               ["ER016"; str_opt projectName; dirname] valid ;;
    if bool_decide (myPathJoin [proj; ".cproject"] ∉ names m) then
      valid <- foldM (λ valid nature,
                        flag (bool_decide (Some nature ∈ natures))
                          ("{}: " +:+ tab ("Nature " +:+ String DQUOTE ("{}" +:+ String DQUOTE
                             " not expected for hierical projects : {} ")))
                          ["ER017"; nature; proj] valid)
                 valid [CNATURE; CCNATURE] ;;
      ret (valid, true)
    else ret (valid, false)
  else ret (valid, false).

(** Lines 553-604: the checks on a sub-project of an H7, L5 or U5 root. *)
Definition validateSubProject (m : Main) (proj : string) (projectName : option string)
    (natures : gset (option string)) (mcuFamily : option McuFamily) (valid : bool)
  : M bool :=
  if bool_decide (mcuFamily = Some STM32H7) then
    if negb (String.eqb (getBasename proj) "STM32CubeIDE") then
      valid <- flag (bool_decide (Some MULTICPU_NATURE ∉ natures))
                 ("{}: " +:+ tab "Missing nature com.st.stm32cube.ide.mcu.MCUMultiCpuProjectNature : {}")
                 ["ER019"; proj] valid ;;
      let parent := getParentDirectory proj in
      parentNatures <- lift (getEclipseNatures fromstring m parent) ;;
      if bool_decide (Some ROOT_NATURE ∈ parentNatures) then
        parentProjectName <- lift (getEclipseProjectName fromstring m parent) ;;
        let dirname := getBasename proj in
        expected <- lift (match parentProjectName with
                          | Some n => Ok (n +:+ "_" +:+ dirname)
                          | None => Raise TypeError
                          end) ;;
        flag (bool_decide (projectName ≠ Some expected))
          ("{}: " +:+ tab "Project name does not match expected name : {} ")
          ["ER020"; proj] valid
      else ret valid
    else ret valid
  else if is_TrustZone_family mcuFamily then
    valid <- flag (bool_decide (Some SECURE_NATURE ∈ natures)
                   && bool_decide (Some NONSECURE_NATURE ∈ natures))
               "{}: Same project cannot be tagged both secure and non-secure : {} "
               ["ER021"; proj] valid ;;
    if bool_decide (Some TZ_DISABLED_NATURE ∉ natures) then
      let parent := getParentDirectory proj in
      parentNatures <- lift (getEclipseNatures fromstring m parent) ;;
      parentProjectName <- lift (getEclipseProjectName fromstring m parent) ;;
      let suffixed (suffix : string) : result string :=
        match parentProjectName with
        | Some n => Ok (n +:+ suffix)
        | None => Raise TypeError
        end in
      valid <- (if bool_decide (Some ROOT_NATURE ∈ parentNatures) then
                  valid <- (if bool_decide (Some SECURE_NATURE ∈ natures) then
                              expected <- lift (suffixed "_Secure") ;;
                              flag (bool_decide (projectName ≠ Some expected))
                                ("{}: " +:+ tab "Project name does not match expected secure name : {}")
                                ["ER022"; proj] valid
                            else ret valid) ;;
                  (if bool_decide (Some NONSECURE_NATURE ∈ natures) then
                     expected <- lift (suffixed "_NonSecure") ;;
                     flag (bool_decide (projectName ≠ Some expected))
                       ("{}: " +:+ tab "Project name does not match expected non-secure name : {}")
                       ["ER023"; proj] valid
                   else ret valid)
                else ret valid) ;;
      if bool_decide (Some NONSECURE_NATURE ∈ natures) then
        projectRefs <- lift (getEclipseProjectReferences fromstring m proj) ;;
        secureProjectName <- lift (suffixed "_Secure") ;;
        match projectRefs with
        | None => lift (Raise TypeError)
        | Some refs =>
            flag (bool_decide (Some secureProjectName ∉ refs))
              ("{}: " +:+ tab "Missing project reference to {}")
              ["ER024"; secureProjectName] valid
        end
      else ret valid
    else ret valid
  else ret valid.

(** Lines 607-626: the names of the build configurations. *)
Definition validateConfigNames (proj : string) (configNames : list (option string))
    (valid : bool) : M bool :=
  valid <- flag (bool_decide (Some "Debug" ∉ configNames))
             ("{}:  " +:+ tab ("Expecting build configuration named " +:+ String DQUOTE
                ("Debug" +:+ String DQUOTE " : {} ")))
             ["ER025"; proj] valid ;;
  valid <- flag (bool_decide (Some "Release" ∉ configNames))
             ("{}: " +:+ tab ("Expecting build configuration named " +:+ String DQUOTE
                ("Release" +:+ String DQUOTE " : {} ")))
             ["ER026"; proj] valid ;;
  if bool_decide ((list_to_set configNames : gset (option string))
                  = list_to_set [Some "Debug"; Some "Release"])
  then flag (bool_decide ([Some "Debug"; Some "Release"] ≠ configNames))
         ("{}: " +:+ tab "Wrong order of build configurations: {} : {}")
         ["ER027"; repr_list configNames; proj] valid
  else ret valid.

End CubeIDE.

Section BuildConfiguration.

Variable fromstring : string → option Element.

(** [getToolchainOption(name)] (lines 653-657) *)
Definition getToolchainOption (config : Element) (name : string) : option string :=
  o ← find (OPTION name) config; attrib o !! "value".

(** Lines 658-671: the toolchain must not be fixed. *)
Definition validateToolchain (proj : string) (config : Element) (valid : bool) : M bool :=
  match getToolchainOption config "com.st.stm32cube.ide.mcu.gnu.managedbuild.option.toolchain" with
  | None =>
      let tcDefault :=
        getToolchainOption config "com.st.stm32cube.ide.mcu.option.internal.toolchain.default" in
      let tcType :=
        getToolchainOption config "com.st.stm32cube.ide.mcu.option.internal.toolchain.type" in
      let tcVersion :=
        getToolchainOption config "com.st.stm32cube.ide.mcu.option.internal.toolchain.version" in
      flag (bool_decide (tcDefault = Some "false"))
        "{}: Fixed toolchain detected ({}, {}), but should not be set!"
        ["ER034"; str_opt tcType; str_opt tcVersion] valid
  | Some toolchainId =>
      flag (negb (String.eqb toolchainId
                    "com.st.stm32cube.ide.mcu.gnu.managedbuild.option.toolchain.value.workspace"))
        "{}: Fixed toolchain detected ({}), but should not be set! : {}"
        ["ER034"; toolchainId; proj] valid
  end.

(** An optimisation or debug level (lines 675-720): a missing value is
    reported in pedantic mode, a value that does not fit the configuration
    always. *)
Definition validateLevel (m : Main) (configName : option string) (option : Element)
    (debug_values release_values : list string)
    (missing wrong : string * string) (proj : string) (valid : bool) : M bool :=
  match attrib option !! "value" with
  | None => flag (pedantic (options m)) missing.2 [missing.1; proj] valid
  | Some value =>
      flag (bool_decide (configName = Some "Debug") && bool_decide (value ∉ debug_values)
            || bool_decide (configName = Some "Release") && bool_decide (value ∉ release_values))
        wrong.2 [wrong.1; value; proj] valid
  end.

(** [any(x.attrib.get("value") == "" for x in option.findall("./listOptionValue"))] *)
Definition has_empty_object (option : Element) : bool :=
  bool_decide (Exists (λ x, attrib x !! "value" = Some EmptyString)
                 (findall [Child "listOptionValue"] option)).

(** The chain of tests on [superClass] (lines 674-745). *)
Definition validateOption (m : Main) (proj build_path : string) (configName : option string)
    (option : Element) (valid : bool) : M bool :=
  let superClass := attrib option !! "superClass" in
  let has_class (suffix : string) := bool_decide (superClass = Some (TOOL +:+ suffix)) in
  let unless (c : M bool) : M bool := ok <- c ;; ret (if ok then valid else false) in
  if has_class "c.compiler.option.optimization.level" then
    validateLevel m configName option
      [TOOL +:+ "c.compiler.option.optimization.level.value.o0";
       TOOL +:+ "c.compiler.option.optimization.level.value.og"]
      [TOOL +:+ "c.compiler.option.optimization.level.value.os"]
      ("ER027", "{}: No C optimization level defined : {}")
      ("ER028", "{}: Wrong C optimization level: {} : {}") proj valid
  else if has_class "cpp.compiler.option.optimization.level" then
    validateLevel m configName option
      [TOOL +:+ "cpp.compiler.option.optimization.level.value.o0";
       TOOL +:+ "cpp.compiler.option.optimization.level.value.og"]
      [TOOL +:+ "cpp.compiler.option.optimization.level.value.os"]
      ("ER027", "{}: No CPP optimization level defined : {}")
      ("ER028", "{}: Wrong CPP optimization level: {} : {}") proj valid
  else if has_class "c.compiler.option.debuglevel" then
    validateLevel m configName option
      [TOOL +:+ "c.compiler.option.debuglevel.value.g3"]
      [TOOL +:+ "c.compiler.option.debuglevel.value.g0"]
      ("ER029", "{}: No C debug level defined : {} ")
      ("ER030", "{}: Wrong C debug level: {} : {}") proj valid
  else if has_class "cpp.compiler.option.debuglevel" then
    validateLevel m configName option
      [TOOL +:+ "cpp.compiler.option.debuglevel.value.g3"]
      [TOOL +:+ "cpp.compiler.option.debuglevel.value.g0"]
      ("ER029", "{}: No C debug level defined : {}")
      ("ER030", "{}: Wrong CPP debug level: {} : {}") proj valid
  else if has_class "assembler.option.includepaths" then
    unless (validateIncludePathsOption m proj build_path option "ASM")
  else if has_class "c.compiler.option.includepaths" then
    unless (validateIncludePathsOption m proj build_path option "C")
  else if has_class "cpp.compiler.option.includepaths" then
    unless (validateIncludePathsOption m proj build_path option "CPP")
  else if has_class "c.linker.option.script" then
    unless (validateLinkerScriptOption m proj build_path option "C")
  else if has_class "cpp.linker.option.script" then
    unless (validateLinkerScriptOption m proj build_path option "CPP")
  else if has_class "c.linker.option.additionalobjs" then
    flag (has_empty_object option)
      ("{}: C linker " +:+ String DQUOTE (String DQUOTE " is not a valid additional object"))
      ["ER031"] valid
  else if has_class "cpp.linker.option.additionalobjs" then
    flag (has_empty_object option)
      ("{}: CPP linker " +:+ String DQUOTE (String DQUOTE " is not a valid additional object : {}"))
      ["ER030"; proj] valid
  else ret valid.

(** "Special U5/L5 handling" (lines 748-764): the linker of a non-secure
    project takes the object of the secure one. *)
Definition validateSecureLib (proj : string) (projectName configName : option string)
    (natures : gset (option string)) (mcuFamily : option McuFamily)
    (option : Element) (valid : bool) : M bool :=
  if is_TrustZone_family mcuFamily
     && bool_decide (Some TZ_DISABLED_NATURE ∉ natures)
     && bool_decide (Some NONSECURE_NATURE ∈ natures) then
    expectedLib <- lift (match projectName with
                         | None => Raise AttributeError
                         | Some n =>
                             Ok ("${workspace_loc:/" +:+ Py.replace n "_NonSecure" "_Secure"
                                 +:+ "/" +:+ str_opt configName +:+ "/secure_nsclib.o}")
                         end) ;;
    let superClass := attrib option !! "superClass" in
    let values := (λ x, attrib x !! "value") <$> findall [Child "listOptionValue"] option in
    if bool_decide (superClass = Some (TOOL +:+ "c.linker.option.additionalobjs")) then
      flag (bool_decide (Some expectedLib ∉ values))
        "{}: Missing secure_nsclib.o on C linker: {} : {}" ["ER032"; expectedLib; proj] valid
    else if bool_decide (superClass = Some (TOOL +:+ "cpp.linker.option.additionalobjs")) then
      flag (bool_decide (Some expectedLib ∉ values))
        "{}: Missing secure_nsclib.o on CPP linker: {} : {}" ["ER032"; expectedLib; proj] valid
    else ret valid
  else ret valid.

(** Lines 766-779: the inputs of the linker name [$(LIBS)]. *)
Definition validateInputType (proj : string) (inputType : Element) (valid : bool) : M bool :=
  let superClass := attrib inputType !! "superClass" in
  let additionalInputPaths :=
    (λ x, attrib x !! "paths") <$> findall [Child "additionalInput"] inputType in
  if bool_decide (superClass = Some (TOOL +:+ "c.linker.input")) then
    flag (bool_decide (Some "$(LIBS)" ∉ additionalInputPaths))
      "{}: Missing $(LIBS) on C linker : {} " ["ER033"; proj] valid
  else if bool_decide (superClass = Some (TOOL +:+ "cpp.linker.input")) then
    flag (bool_decide (Some "$(LIBS)" ∉ additionalInputPaths))
      "{}: Missing $(LIBS) on CPP linker : {}" ["ER033"; proj] valid
  else ret valid.

(** One turn of the loop over the build configurations (lines 633-779). *)
Definition validateConfiguration (m : Main) (proj : string) (projectName : option string)
    (natures : gset (option string)) (mcuFamily : option McuFamily)
    (valid : bool) (config : Element) : M bool :=
  let configName := attrib config !! "name" in
  let build_path := myPathJoin [proj; if truthy configName then str_opt configName else "dummy"] in
  valid <- match attrib config !! "parent" with
           | None => lift (Raise AttributeError)
           | Some configParent =>
               flag (negb (Py.startswith configParent "com.st.stm32cube.ide."))
                 "{}: Unexpected build configuration with parent = {} : {}"
                 ["ER011"; configParent; proj] valid
           end ;;
  valid <- validateToolchain proj config valid ;;
  valid <- foldM (λ valid option,
                    valid <- validateOption m proj build_path configName option valid ;;
                    validateSecureLib proj projectName configName natures mcuFamily option valid)
             valid (findall [Descendant "option"] config) ;;
  foldM (λ valid inputType, validateInputType proj inputType valid)
    valid (findall [Descendant "inputType"] config).

(** What the first half of [validateCubeIDEProject] hands to the second. *)
Record LeafProject : Type := mkLeafProject {
  leaf_projectName : option string;
  leaf_natures : gset (option string);
  leaf_mcuFamily : option McuFamily;
  leaf_root : Element
}.

(** Lines 466-605 of [validateCubeIDEProject]: the checks on the natures
    and the names.  The second component is [None] when the function returns
    at line 532 or at line 550. *)
Definition validateProjectNature (m : Main) (proj : string)
  : M (bool * option LeafProject) :=
  let valid := true in
  projectName <- lift (getEclipseProjectName fromstring m proj) ;;
  natures <- lift (getEclipseNatures fromstring m proj) ;;
  mcus <- lift (projectMcus fromstring m proj) ;;
  family <- determineMcuFamily mcus valid ;;
  let '(valid, mcuFamily) := family in
  root <- validateRootProject fromstring m proj projectName natures mcuFamily valid ;;
  let '(valid, returns) := root in
  if returns then ret (valid, None)
  else
    valid <- flag (bool_decide (Some CNATURE ∉ natures))
               ("{}: " +:+ tab "Expected C nature : {}") ["ER018"; proj] valid ;;
    sysmem <- validateSysmemC m proj ;;
    let valid := if sysmem then valid else false in
    root <- lift (getDOM fromstring m (myPathJoin [proj; ".cproject"])) ;;
    match root with
    | None =>
        report ("{}: " +:+ tab ".cproject file missing in {}") ["ER011"; proj] ;;
        ret (false, None)
    | Some root =>
        valid <- validateSubProject fromstring m proj projectName natures mcuFamily valid ;;
        ret (valid, Some (mkLeafProject projectName natures mcuFamily root))
    end.

(** The names of the build configurations of a [.cproject] (line 607). *)
Definition configNames (root : Element) : list (option string) :=
  (λ x, attrib x !! "name") <$> findall CONFIGURATIONS root.

(** [Main.validateCubeIDEProject]: the first half, then lines 607-781 on the
    build configurations. *)
Definition validateCubeIDEProject (m : Main) (proj : string) : M bool :=
  nature <- validateProjectNature m proj ;;
  match nature with
  | (valid, None) => ret valid
  | (valid, Some leaf) =>
      valid <- validateConfigNames proj (configNames (leaf_root leaf)) valid ;;
      foldM (validateConfiguration m proj (leaf_projectName leaf) (leaf_natures leaf)
               (leaf_mcuFamily leaf))
        valid (findall CONFIGURATIONS (leaf_root leaf))
  end.

End BuildConfiguration.

(** ** The run ([__main__], lines 1080-1198) *)

(** [s.split(",")] *)
Fixpoint split_comma (s : string) : list string :=
  match s with
  | EmptyString => [EmptyString]
  | String c r =>
      match split_comma r with
      | h :: t => if Ascii.eqb c "," then EmptyString :: h :: t else String c h :: t
      | [] => []
      end
  end.

(** The counters of the summary. *)
Record Summary : Type := mkSummary {
  failed_proj : nat;
  failed_scripts : nat;
  total_projects : nat;
  failed_subproj : nat;
  total_scripts : nat;
  listof_failed_projects : list string;
  listof_failed_scripts : list string
}.

Definition FAILED_VALIDATION : string := "* ERROR_QA: FAILED VALIDATION".
Definition SUCCESSFUL_VALIDATION : string := "* SUCCESSFUL VALIDATION".

(** [Main.validateEclipseProject], lines 306-318: the two checks that return
    at once.  [rest] stands for lines 320-400, which go on from the document
    of [.project]. *)
Definition validateEclipseProject_head (fromstring : string → option Element)
    (rest : Main → string → Element → M bool) (m : Main) (proj : string) : M bool :=
  if Py.endswith (appendSlashIfMissing proj) "RemoteSystemsTempFiles/" then
    report ("{}: " +:+ tab " Sub-project should be removed!") ["ER001"] ;;
    ret false
  else
    root <- lift (getDOM fromstring m (myPathJoin [proj; ".project"])) ;;
    match root with
    | None =>
        report ("{}: " +:+ tab ".project file missing in {}") ["ER002"; proj] ;;
        ret false
    | Some root => rest m proj root
    end.

Section Run.

(** [ET.fromstring] *)
Variable fromstring : string → option Element.
(** [re.match(pattern, s) != None] for the patterns of [--skip]. *)
Variable re_match : string → string → bool.
(** The text of a file of the host. *)
Variable host_read : string → option string.
(** [Main.validateEclipseProject] and [Main.validateScript]: the run uses
    what they print and the truth value they return. *)
Variable validateEclipseProject : Main → string → M bool.
Variable validateScript : Main → string → M bool.

(** [Main.skipProject] (lines 1061-1067) *)
Definition skipProject (m : Main) (projlist : list string) : list string :=
  foldl (λ projlist skip_reg_file,
           foldl (λ acc proj,
                    if re_match skip_reg_file proj
                    then filter (λ x, x ≠ proj) acc else acc)
             projlist projlist)
    projlist (split_comma (str_opt (file_to_skip (options m)))).

(** [Main.skipScript] (lines 1069-1078) *)
Definition skipScript (m : Main) (scriptlist : list string) : result (list string) :=
  let scripts_reg_to_skip := split_comma (str_opt (file_to_skip (options m))) in
  let indexList :=
    i ← seq 0 (length scriptlist);
    script_to_skip ← scripts_reg_to_skip;
    if re_match script_to_skip (default EmptyString (scriptlist !! i)) then [i] else [] in
  foldM_result (λ l index, if (index <? length l)%nat then Ok (delete index l)
                           else Raise IndexError)
    scriptlist (reverse indexList).

(** One turn of the loop over the projects (lines 1154-1170).  The state of
    the loop is [(total_projects, failed_proj, listof_failed_projects,
    failed_subproj)].  The two tests on [isEclipseBasedIde] let an Eclipse
    based project through, with or without [--debug]. *)
Definition validateProject (m : Main) (acc : nat * nat * list string * nat) (proj : string)
  : M (nat * nat * list string * nat) :=
  let '(total, failed, failed_list, failed_sub) := acc in
  let total := S total in
  eclipse <- lift (isEclipseBasedIde fromstring m proj) ;;
  if eclipse then
    failed_sub <-
      foldM (λ failed_sub subproj,
               ok <- validateEclipseProject m subproj ;;
               _ <- validateEclipseProject m subproj ;;
               ret (if ok then failed_sub else S failed_sub))
        failed_sub (sorted_set (listEclipseProjects m (Some proj))) ;;
    ret (total, failed, failed_list, failed_sub)
  else
    report ("{}: " +:+ tab "Missing {} STM32CubeIDE project") ["ER100"; proj] ;;
    ret (total, S failed, failed_list ++ [proj], failed_sub).

(** One turn of the loop over the scripts (lines 1181-1188). *)
Definition validateOneScript (m : Main) (acc : nat * nat * list string) (script : string)
  : M (nat * nat * list string) :=
  let '(total, failed, failed_list) := acc in
  ok <- validateScript m script ;;
  ret (if ok then (S total, failed, failed_list)
       else (S total, S failed, failed_list ++ [script])).

(** The run, from the archives to the summary.  [elapsed] is the time shown
    in the summary. *)
Definition main (opts : Options) (archs : list Archive) (elapsed : string) : M Summary :=
  m <- Main_init host_read opts archs ;;
  let proj_list := sorted_set (listProjects m) in
  let proj_list := if truthy (file_to_skip opts) then skipProject m proj_list else proj_list in
  projects <- foldM (validateProject m) (0, 0, [], 0) proj_list ;;
  let '(total_projects, failed_proj, listof_failed_projects, failed_subproj) := projects in
  let list_scripts := sorted_set (listScripts m) in
  list_scripts <- lift (if truthy (file_to_skip opts) then skipScript m list_scripts
                        else Ok list_scripts) ;;
  scripts <- foldM (validateOneScript m) (0, 0, []) list_scripts ;;
  let '(total_scripts, failed_scripts, listof_failed_scripts) := scripts in
  (if bool_decide (length listof_failed_scripts ≠ 0)
      || bool_decide (length listof_failed_projects ≠ 0)
   then print FAILED_VALIDATION
   else print SUCCESSFUL_VALIDATION) ;;
  print ("* The script's run-time : " +:+ elapsed +:+ " seconds ") ;;
  report "* Number of failed projects : {} out of {} " [pretty failed_proj; pretty total_projects] ;;
  report "* Number of failed scripts : {} out of {} " [pretty failed_scripts; pretty total_scripts] ;;
  ret (mkSummary failed_proj failed_scripts total_projects failed_subproj total_scripts
         listof_failed_projects listof_failed_scripts).

End Run.

(** * The vocabulary of the statements, and the examples *)

Definition is_longest_prefix (f : McuFamily) (mcuName : string) : Prop :=
  Py.startswith mcuName (McuFamily_name f) = true ∧
  ∀ g, Py.startswith mcuName (McuFamily_name g) = true →
       String.length (McuFamily_name g) ≤ String.length (McuFamily_name f).

Definition McuFamily_items : list (string * McuFamily) :=
  sorted_reverse (λ x, String.length x.1) McuFamily_members.

(** No two slashes in a row. *)
Fixpoint no_double_slash (s : string) : bool :=
  match s with
  | EmptyString => true
  | String _ r => negb (Py.startswith s "//") && no_double_slash r
  end.





(** The text of a document, written without white space between the
    elements. *)
Fixpoint to_xml (e : Element) : string :=
  let 'Elem t a txt cs := e in
  "<" +:+ t
  +:+ String.concat "" (map (λ kv : string * string, " " +:+ kv.1 +:+ "='" +:+ kv.2 +:+ "'")
                          (map_to_list a))
  +:+ ">" +:+ default "" txt
  +:+ (fix all (l : list Element) : string :=
         match l with
         | [] => ""
         | c :: l' => to_xml c +:+ all l'
         end) cs
  +:+ "</" +:+ t +:+ ">".

(** A parser that knows the documents of an example. *)
Definition fromstring_of (docs : list Element) (content : string) : option Element :=
  List.find (λ e, String.eqb (to_xml e) content) docs.

Definition leaf (t : string) (txt : string) : Element := Elem t ∅ (Some txt) [].
Definition node (t : string) (cs : list Element) : Element := Elem t ∅ None cs.

Definition dot_project (name : string) (refs natures : list string) : Element :=
  node "projectDescription"
    [leaf "name" name;
     node "projects" (leaf "project" <$> refs);
     node "natures" (leaf "nature" <$> natures)].

Definition option_value (superClass value : string) : Element :=
  Elem "option" (<["superClass" := superClass]> (<["value" := value]> ∅)) None [].

Definition configuration (name mcu : string) : Element :=
  Elem "configuration"
    (<["name" := name]> (<["parent" := "com.st.stm32cube.ide.mcu.gnu.managedbuild.config.exe." +:+ name]> ∅))
    None
    [node "folderInfo"
       [node "toolChain"
          [option_value "com.st.stm32cube.ide.mcu.gnu.managedbuild.option.target_mcu" mcu]]].

Definition dot_cproject (mcu : string) (configs : list string) : Element :=
  node "cproject"
    [Elem "storageModule" (<["moduleId" := "cdtBuildSystem"]> ∅) None
       ((λ c, configuration c mcu) <$> configs)].

Definition tz_root := dot_project "Demo" [] [ROOT_NATURE].
Definition tz_secure := dot_project "Demo_Secure" [] [CNATURE; SECURE_NATURE].
Definition tz_nonsecure := dot_project "Demo_NonSecure" ["Demo_Secure"] [CNATURE; NONSECURE_NATURE].
Definition tz_nonsecure_noref := dot_project "Demo_NonSecure" [] [CNATURE; NONSECURE_NATURE].
Definition tz_cproject := dot_cproject "STM32L552ZETxQ" ["Debug"; "Release"].

Definition tz_docs := [tz_root; tz_secure; tz_nonsecure; tz_nonsecure_noref; tz_cproject].

Definition zip_of (files : list (string * string)) : ZipFile :=
  mkZipFile files.*1 (λ x, snd <$> List.find (λ f, String.eqb f.1 x) files).

Definition archive_of (files : list (string * string)) : Archive :=
  match Archive_init "posix" (ZipSource (zip_of files)) with
  | Ok a => a
  | Raise _ => mkArchive ∅ (ZipSource (zip_of files))
  end.

Definition no_options : Options := mkOptions false false None false None None false.

Definition validator_of (files : list (string * string)) : Main :=
  match Main_init (λ _, None) no_options [archive_of files] (mkState [] ∅) with
  | (Ok m, _) => m
  | _ => mkMain no_options [] ∅ ∅ ""
  end.

Definition tz_two_secure : list (string * string) :=
  [("Demo/STM32CubeIDE/.project", to_xml tz_root);
   ("Demo/STM32CubeIDE/Secure/.project", to_xml tz_secure);
   ("Demo/STM32CubeIDE/Secure/.cproject", to_xml tz_cproject);
   ("Demo/STM32CubeIDE/Secure2/.project", to_xml tz_secure);
   ("Demo/STM32CubeIDE/Secure2/.cproject", to_xml tz_cproject);
   ("Demo/STM32CubeIDE/NonSecure/.project", to_xml tz_nonsecure);
   ("Demo/STM32CubeIDE/NonSecure/.cproject", to_xml tz_cproject)].

(** The upward walk of [hides_walk]: a path, its parent, and so on up to the
    root or the empty path. *)
Fixpoint climb (fuel : nat) (p : string) : list string :=
  p :: (if String.eqb p EmptyString || String.eqb p "/" then []
        else match fuel with
             | O => []
             | S fuel' => climb fuel' (getParentDirectory p)
             end).

(** The test of [hides_walk]: known when the case is ignored, unknown as it
    is written. *)
Definition collides (m : Main) (p : string) : bool :=
  bool_decide (Py.lower p ∈ lc_names m) && bool_decide (p ∉ names m).

Definition hides_message (p : string) : string :=
  "ER051: " +:+ tab (p +:+ " hides other resources").
Definition wrong_case_message (p : string) : string :=
  "ER049: " +:+ tab (p +:+ " has wrong case in archive").
Definition missing_message (p : string) : string :=
  "ER050: " +:+ tab (p +:+ " missing from archive").

(** An archive that holds the directory [/Inc/Sub/] and nothing else. *)
Definition inc_validator : Main := validator_of [("Inc/Sub/", "")].

(** A TrustZone root with one non-secure child and no secure child. *)
Definition tz_no_secure : list (string * string) :=
  [("Demo/STM32CubeIDE/.project", to_xml tz_root);
   ("Demo/STM32CubeIDE/NonSecure/.project", to_xml tz_nonsecure);
   ("Demo/STM32CubeIDE/NonSecure/.cproject", to_xml tz_cproject)].

(** The same root with a secure child, and a non-secure child that does not
    name the secure project among its references. *)
Definition tz_no_reference : list (string * string) :=
  [("Demo/STM32CubeIDE/.project", to_xml tz_root);
   ("Demo/STM32CubeIDE/Secure/.project", to_xml tz_secure);
   ("Demo/STM32CubeIDE/Secure/.cproject", to_xml tz_cproject);
   ("Demo/STM32CubeIDE/NonSecure/.project", to_xml tz_nonsecure_noref);
   ("Demo/STM32CubeIDE/NonSecure/.cproject", to_xml tz_cproject)].

Definition st0 : State := mkState [] ∅.

(** [emits φ c]: from any state, [c] only adds lines to the log, and every
    line it adds satisfies [φ], whether [c] returns or raises. *)
Definition emits {A} (φ : string → Prop) (c : M A) : Prop :=
  ∀ st, ∃ new, log (c st).2 = log st ++ new ∧ Forall φ new.

(** The lines that start with one of the given texts. *)
Definition language (L : list string) (s : string) : Prop :=
  existsb (Py.startswith s) L = true.

(** Two texts that differ at a position they both have. *)
Fixpoint clash (p q : string) : bool :=
  match p, q with
  | String a p', String b q' => negb (Ascii.eqb a b) || clash p' q'
  | _, _ => false
  end.

(** The heads of the lines of each part of [validateCubeIDEProject]. *)
Definition SYSMEM_MESSAGES : list string := ["ER035 :"].
Definition OPTION_PATH_MESSAGES : list string := ["ER047:"; "ER048:"; "ER050:"; "ER051:"].
Definition CONFIGURATION_MESSAGES : list string :=
  ["ER011: U"; "ER034:"; "ER027: N"; "ER028:"; "ER029:"; "ER030:"; "ER031:"; "ER032:"; "ER033:"]
  ++ OPTION_PATH_MESSAGES.
Definition NAMES_MESSAGES : list string := ["ER025:"; "ER026:"; "ER027: " +:+ tab "W"].
Definition ROOT_MESSAGES : list string := ["ER016:"; "ER017:"].
Definition SUBPROJECT_MESSAGES : list string :=
  ["ER019:"; "ER020:"; "ER021:"; "ER022:"; "ER023:"; "ER024:"].
Definition LEAF_MESSAGES : list string := ["ER018:"; "ER011: " +:+ tab "."] ++ SYSMEM_MESSAGES.



Definition is_finding (head : string) (s : string) : Prop := Py.startswith s head = true.



(** The findings on the children of a TrustZone root and on the reference
    of a non-secure project. *)
Definition SECURE_MISSING_HEAD : string := "ER014: " +:+ tab "Secure project missing : ".
Definition NONSECURE_MISSING_HEAD : string := "ER015: " +:+ tab "Non-secure project missing : ".
Definition REFERENCE_MISSING_HEAD : string := "ER024: " +:+ tab "Missing project reference to ".

Definition pairing_findings (proj : string) (hasSecureChild hasNonSecureChild : bool)
  : list string :=
  (if hasSecureChild then [] else [SECURE_MISSING_HEAD +:+ proj +:+ " "])
  ++ (if hasNonSecureChild then [] else [NONSECURE_MISSING_HEAD +:+ proj]).

Definition AFTER_PAIRING_MESSAGES : list string :=
  ROOT_MESSAGES ++ LEAF_MESSAGES ++ SUBPROJECT_MESSAGES ++ NAMES_MESSAGES
  ++ CONFIGURATION_MESSAGES.

(** [returns φ c]: from any state [c] does not raise, and the lines it adds
    to the log satisfy [φ]. *)
Definition returns {A} (φ : string → Prop) (c : M A) : Prop :=
  ∀ st, ∃ a new cache,
    c st = (Ok a, mkState (log st ++ new) cache) ∧ Forall φ new.

Definition BEFORE_REFERENCE_MESSAGES : list string :=
  ["ER018:"; "ER021:"; "ER022:"; "ER023:"] ++ SYSMEM_MESSAGES.

Definition reference_findings (secureProjectName : string) (refs : gset (option string))
  : list string :=
  if bool_decide (Some secureProjectName ∉ refs)
  then [REFERENCE_MISSING_HEAD +:+ secureProjectName] else [].

(** The line of the check "source exists" for a path. *)
Definition source_findings (m : Main) (resolved : string) : list string :=
  if bool_decide (resolved ∈ names m) then []
  else [if bool_decide (Py.lower resolved ∈ lc_names m)
        then wrong_case_message resolved else missing_message resolved].

(** The line of the walk from a path, with an empty cache. *)
Definition walk_findings (m : Main) (p : string) : list string :=
  match List.find (collides m) (climb (String.length p) p) with
  | Some q => [hides_message q]
  | None => []
  end.

(** Two archives that store the same path with different contents. *)
Definition layer1 : Archive := archive_of [("a/b.txt", "one")].
Definition layer2 : Archive := archive_of [("a/b.txt", "two")].

(** The validator of a list of archives, with the default options. *)
Definition validator_of_archives (archs : list Archive) : Main :=
  match Main_init (λ _, None) no_options archs (mkState [] ∅) with
  | (Ok m, _) => m
  | _ => mkMain no_options [] ∅ ∅ EmptyString
  end.


(** The line of [validateSysmemC] for a file. *)
Definition sysmem_matches (m : Main) (file : string) : bool :=
  match Main_getFileContent m file with
  | Some content => String.eqb (SYSMEM_C_HASH m) (toSysmemHash content)
  | None => false
  end.

Definition sysmem_message (file : string) : string :=
  "ER035 : " +:+ tab "Unexpected sysmem.c content located at " +:+ file.

Definition sysmem_findings (m : Main) (files : list string) : list string :=
  sysmem_message <$> filter (λ file, sysmem_matches m file = false) files.

(** A text without a slash has no comment. *)
Fixpoint no_slash (s : string) : bool :=
  match s with
  | EmptyString => true
  | String c r => negb (is_slash c) && no_slash r
  end.

(** The projects of the run (lines 1146-1151). *)
Definition project_list (re_match : string → string → bool) (opts : Options) (m : Main)
  : list string :=
  if truthy (file_to_skip opts) then skipProject re_match m (sorted_set (listProjects m))
  else sorted_set (listProjects m).

(** The scripts of the run (lines 1174-1178). *)
Definition script_list (re_match : string → string → bool) (opts : Options) (m : Main)
  : result (list string) :=
  if truthy (file_to_skip opts) then skipScript re_match m (sorted_set (listScripts m))
  else Ok (sorted_set (listScripts m)).

(** A project of the run that is reported with code ER100. *)
Definition not_eclipse (fromstring : string → option Element) (m : Main) (proj : string)
  : bool :=
  match isEclipseBasedIde fromstring m proj with
  | Ok false => true
  | _ => false
  end.

(** The scripts for which [validateScript] returns false, when the scripts
    of a list are validated one after the other from a state. *)
Fixpoint failed_scripts_of (validateScript : Main → string → M bool) (m : Main)
    (scripts : list string) (st : State) : list string :=
  match scripts with
  | [] => []
  | script :: scripts' =>
      match validateScript m script st with
      | (Ok ok, st') =>
          (if ok then [] else [script]) ++ failed_scripts_of validateScript m scripts' st'
      | (Raise _, _) => []
      end
  end.

(** The lines of the summary. *)
Definition verdict_line (s : Summary) : string :=
  if bool_decide (listof_failed_scripts s ≠ [] ∨ listof_failed_projects s ≠ [])
  then FAILED_VALIDATION else SUCCESSFUL_VALIDATION.

Definition runtime_line (elapsed : string) : string :=
  "* The script's run-time : " +:+ elapsed +:+ " seconds ".

Definition count_line (what : string) (failed total : nat) : string :=
  "* Number of failed " +:+ what +:+ " : " +:+ pretty failed +:+ " out of " +:+ pretty total +:+ " ".

(** An archive whose only project is a left-over of the IDE. *)
Definition remote_files : list (string * string) :=
  [("Demo/STM32CubeIDE/RemoteSystemsTempFiles/.project",
    to_xml (dot_project "RemoteSystemsTempFiles" [] []))].

(** * Properties *)

(** * Facts about the string primitives *)

Lemma is_slash_true c : is_slash c = true ↔ c = SLASH.
Proof. unfold is_slash. apply Ascii.eqb_eq. Qed.

Lemma append_nil_l (s : string) : "" +:+ s = s.
Proof. reflexivity. Qed.

Lemma append_cons c (a b : string) : String c a +:+ b = String c (a +:+ b).
Proof. reflexivity. Qed.

Lemma append_nil_r (s : string) : s +:+ "" = s.
Proof. induction s as [|c s IH]; [done |]. by rewrite append_cons, IH. Qed.

Lemma string_length_app (a b : string) :
  String.length (a +:+ b) = String.length a + String.length b.
Proof.
  induction a as [|c a IH]; [done |].
  rewrite append_cons. simpl. by rewrite IH.
Qed.

Lemma strip_prefix_Some p s r : Py.strip_prefix p s = Some r ↔ s = p +:+ r.
Proof.
  revert s. induction p as [|a p IH]; intros s; simpl.
  - rewrite append_nil_l. split; congruence.
  - rewrite append_cons. destruct s as [|b s]; [split; discriminate |].
    destruct (Ascii.eqb_spec a b) as [->|Hne].
    + rewrite IH. split; [by intros -> | by intros [= ->]].
    + split; [discriminate | intros [= ? ?]; done].
Qed.

Lemma startswith_true s p : Py.startswith s p = true ↔ ∃ r, s = p +:+ r.
Proof.
  unfold Py.startswith. destruct (Py.strip_prefix p s) as [r|] eqn:E.
  - apply strip_prefix_Some in E. split; eauto.
  - split; [discriminate | intros [r Hr]].
    apply strip_prefix_Some in Hr. congruence.
Qed.

Lemma string_app_inj_length (p q r r' : string) :
  p +:+ r = q +:+ r' → String.length p = String.length q → p = q.
Proof.
  revert q. induction p as [|a p IH]; intros [|b q]; simpl; try done.
  rewrite !append_cons. intros [= -> H] [= Hl]. f_equal. by apply IH.
Qed.

(** Two prefixes of one text that have the same length are equal. *)
Lemma startswith_same_length s p q :
  Py.startswith s p = true → Py.startswith s q = true →
  String.length p = String.length q → p = q.
Proof.
  rewrite !startswith_true. intros [r ->] [r' Hr] Hl.
  by eapply string_app_inj_length.
Qed.





Lemma appendSlashIfMissing_length s :
  String.length (appendSlashIfMissing s) ≤ S (String.length s).
Proof.
  unfold appendSlashIfMissing. destruct (Py.last_char s) as [c|]; [|lia].
  destruct (is_slash c); [lia |]. rewrite string_length_app. simpl. lia.
Qed.

Lemma appendSlashIfMissing_slash s :
  Py.last_char s = Some SLASH → appendSlashIfMissing s = s.
Proof. unfold appendSlashIfMissing. by intros ->. Qed.


Lemma rstrip_slash_length s : String.length (Py.rstrip_slash s) ≤ String.length s.
Proof.
  induction s as [|c s IH]; simpl; [lia |].
  destruct (Py.rstrip_slash s); simpl in *; [destruct (is_slash c); simpl; lia | lia].
Qed.

Lemma rstrip_slash_last s :
  Py.last_char s = Some SLASH → String.length (Py.rstrip_slash s) < String.length s.
Proof.
  induction s as [|c s IH]; [done |].
  destruct s as [|b s].
  - simpl. intros [= ->]. simpl. lia.
  - intros H. change (Py.last_char (String b s) = Some SLASH) in H.
    specialize (IH H). simpl in *.
    destruct (match Py.rstrip_slash s with
              | EmptyString => if is_slash b then EmptyString else String b EmptyString
              | String a s0 => String b (String a s0)
              end) eqn:E; simpl in *; [destruct (is_slash c); simpl; lia | lia].
Qed.

(** A stripped text is empty or ends with something else than a slash. *)
Lemma rstrip_slash_no_slash s :
  Py.last_char (Py.rstrip_slash s) ≠ Some SLASH.
Proof.
  induction s as [|c s IH]; [done |].
  simpl. destruct (Py.rstrip_slash s) as [|b r] eqn:E.
  - destruct (is_slash c) eqn:Ec; [done |].
    simpl. intros [= ->]. done.
  - simpl. simpl in IH. done.
Qed.

Lemma rsplit_slash_Some p h t :
  Py.rsplit_slash p = Some (h, t) →
  p = h +:+ t ∧ Py.last_char h = Some SLASH ∧ Py.rsplit_slash t = None.
Proof.
  revert h t. induction p as [|c p IH]; intros h t; [done |].
  simpl. destruct (Py.rsplit_slash p) as [[h' t']|] eqn:E.
  - intros [= <- <-]. destruct (IH _ _ eq_refl) as (-> & Hl & Ht).
    split; [done |]. split; [|done].
    simpl. destruct h'; [done | done].
  - destruct (is_slash c) eqn:Ec; [|done].
    intros [= <- <-]. apply is_slash_true in Ec. by subst.
Qed.

Lemma rsplit_slash_None_last p :
  Py.rsplit_slash p = None → Py.last_char p ≠ Some SLASH.
Proof.
  induction p as [|c p IH]; [done |].
  simpl. destruct (Py.rsplit_slash p) as [[h t]|]; [done |].
  destruct (is_slash c) eqn:Ec; [done |]. intros _.
  destruct p as [|b p]; [| by apply IH].
  intros [= ->]. done.
Qed.

Lemma last_char_app_r a b : b ≠ EmptyString → Py.last_char (a +:+ b) = Py.last_char b.
Proof.
  intros Hb. induction a as [|c a IH]; [done |].
  rewrite append_cons. simpl. destruct (a +:+ b) eqn:E; [|done].
  destruct a; [by rewrite append_nil_l in E | by rewrite append_cons in E].
Qed.

(** The parent of a non-empty path is strictly shorter: the loops that climb
    to the root finish. *)
Lemma getParentDirectory_shorter s :
  s ≠ EmptyString → String.length (getParentDirectory s) < String.length s.
Proof.
  intros Hs. unfold getParentDirectory, Py.dirname.
  pose proof (rstrip_slash_length s) as Hle.
  pose proof (rstrip_slash_no_slash s) as Hno.
  destruct (Py.rsplit_slash (Py.rstrip_slash s)) as [[h t]|] eqn:E.
  - destruct (rsplit_slash_Some _ _ _ E) as (Hp & Hh & Ht).
    assert (t ≠ EmptyString) as Hne.
    { intros ->. apply Hno. rewrite Hp.
      by rewrite append_nil_r. }
    assert (String.length h < String.length (Py.rstrip_slash s)) as Hlt.
    { rewrite Hp, string_length_app. destruct t; [done | simpl; lia]. }
    destruct (Py.all_slashes h).
    + rewrite appendSlashIfMissing_slash by done. lia.
    + pose proof (rstrip_slash_last h Hh).
      pose proof (appendSlashIfMissing_length (Py.rstrip_slash h)). lia.
  - simpl. destruct s; [done | simpl; lia].
Qed.

(** * MCU families *)

Section FindSorted.
Context {A : Type} (key : A → nat) (P : A → bool).

(** In a list sorted by decreasing key, the first element that satisfies a
    test has the largest key among those that satisfy it. *)
Lemma find_sorted_first (l : list A) (x : A) :
  StronglySorted (λ a b, key b ≤ key a) l →
  List.find P l = Some x →
  P x = true ∧ x ∈ l ∧ ∀ y, y ∈ l → P y = true → key y ≤ key x.
Proof.
  induction 1 as [|a l Hs IH Hall]; [done |].
  simpl. destruct (P a) eqn:Ea.
  - intros [= <-]. split; [done |]. split; [left |].
    intros y Hy _. apply elem_of_cons in Hy as [->|Hy]; [lia |].
    rewrite Forall_forall in Hall. by apply Hall.
  - intros Hf. destruct (IH Hf) as (Hx & Hin & Hmax).
    split; [done |]. split; [by right |].
    intros y Hy HPy. apply elem_of_cons in Hy as [->|Hy]; [congruence |].
    by apply Hmax.
Qed.

Lemma find_none_all (l : list A) :
  List.find P l = None → ∀ y, y ∈ l → P y = false.
Proof.
  induction l as [|a l IH]; simpl; [intros _ y Hy; by apply elem_of_nil in Hy |].
  destruct (P a) eqn:Ea; [done |].
  intros Hf y Hy. apply elem_of_cons in Hy as [->|Hy]; [done | by apply IH].
Qed.
End FindSorted.

Lemma McuFamily_items_sorted :
  StronglySorted (λ a b : string * McuFamily, String.length b.1 ≤ String.length a.1)
    McuFamily_items.
Proof.
  vm_compute sorted_reverse.
  repeat (constructor; [| repeat (constructor; [simpl; lia |]); constructor]).
  constructor.
Qed.

Lemma McuFamily_items_complete g : (McuFamily_name g, g) ∈ McuFamily_items.
Proof.
  apply list_elem_of_In. destruct g; vm_compute; tauto.
Qed.

Lemma McuFamily_items_name x : x ∈ McuFamily_items → x.1 = McuFamily_name x.2.
Proof.
  intros Hx. apply list_elem_of_In in Hx. vm_compute in Hx.
  repeat (destruct Hx as [<-|Hx]; [reflexivity |]). done.
Qed.

Lemma McuFamily_name_inj f g : McuFamily_name f = McuFamily_name g → f = g.
Proof. destruct f, g; first [reflexivity | discriminate]. Qed.

Lemma McuFamily_name_length g : String.length (McuFamily_name g) ≤ 9.
Proof. destruct g; simpl; lia. Qed.

Lemma toMcuFamily_Some mcuName f :
  toMcuFamily mcuName = Some f ↔ is_longest_prefix f mcuName.
Proof.
  unfold toMcuFamily. fold McuFamily_items.
  destruct (List.find _ McuFamily_items) as [x|] eqn:E; simpl.
  - destruct (find_sorted_first (λ x : string * McuFamily, String.length x.1) _ _ _
                McuFamily_items_sorted E) as (Hx & Hin & Hmax).
    pose proof (McuFamily_items_name _ Hin) as Hn. rewrite Hn in Hx.
    assert (is_longest_prefix x.2 mcuName) as Hlong.
    { split; [done |]. intros g Hg.
      specialize (Hmax _ (McuFamily_items_complete g) Hg). simpl in Hmax.
      by rewrite Hn in Hmax. }
    split; [by intros [= <-] |].
    intros [Hf Hfmax]. f_equal. apply McuFamily_name_inj.
    eapply startswith_same_length; [done | done |].
    destruct Hlong as [_ Hxmax]. specialize (Hxmax _ Hf). specialize (Hfmax _ Hx). lia.
  - split; [done |]. intros [Hf _].
    pose proof (find_none_all _ _ E _ (McuFamily_items_complete f)) as Hno.
    simpl in Hno. congruence.
Qed.

Lemma toMcuFamily_None mcuName :
  toMcuFamily mcuName = None ↔ ∀ g, Py.startswith mcuName (McuFamily_name g) = false.
Proof.
  split.
  - intros Hn g. destruct (Py.startswith mcuName (McuFamily_name g)) eqn:E; [|done].
    unfold toMcuFamily in Hn. fold McuFamily_items in Hn.
    destruct (List.find _ McuFamily_items) as [x|] eqn:Ef; [done |].
    pose proof (find_none_all _ _ Ef _ (McuFamily_items_complete g)) as Hno.
    simpl in Hno. congruence.
  - intros Hall. destruct (toMcuFamily mcuName) as [f|] eqn:E; [|done].
    apply toMcuFamily_Some in E as [Hf _]. by rewrite Hall in Hf.
Qed.

(** C10.  [toMcuFamily] returns the family whose name is the longest name that
    is a prefix of the MCU name, and raises [LookupError] (the result [None])
    exactly when no name of a family is a prefix of it; a name that starts
    with STM32MP13 belongs to the family STM32MP13, not to STM32MP1. *)
Theorem toMcuFamily_longest_prefix (mcuName : string) :
  (∀ f, toMcuFamily mcuName = Some f ↔ is_longest_prefix f mcuName)
  ∧ (toMcuFamily mcuName = None
     ↔ ∀ g, Py.startswith mcuName (McuFamily_name g) = false)
  ∧ (∀ rest, toMcuFamily ("STM32MP13" +:+ rest) = Some STM32MP13).
Proof.
  split; [intros f; apply toMcuFamily_Some |].
  split; [apply toMcuFamily_None |].
  intros rest. apply toMcuFamily_Some. split.
  - apply startswith_true. by exists rest.
  - intros g _. apply McuFamily_name_length.
Qed.

(** * Relative paths *)

Lemma replace_no_double_slash s :
  no_double_slash s = true → Py.replace s "//" "/" = s.
Proof.
  unfold Py.replace. induction s as [|c s IH]; [done |].
  intros H. apply andb_prop in H as [H1 H2].
  cbn [Py.replace_from]. apply negb_true_iff in H1. rewrite H1.
  by rewrite IH.
Qed.

Lemma string_eqb_true (a b : string) : String.eqb a b = true ↔ a = b.
Proof. apply String.eqb_eq. Qed.

Lemma dotdot_chain_append res :
  dotdot_chain res = true → no_double_slash (res +:+ "/..") = true.
Proof.
  remember (String.length res) as n eqn:Hn. revert res Hn.
  induction n as [n IH] using lt_wf_ind. intros res Hn Hc.
  destruct res as [|a [|b [|c r]]]; try done.
  cbn [dotdot_chain] in Hc.
  repeat (apply andb_prop in Hc as [Hc ?]).
  apply is_slash_true in Hc. apply Ascii.eqb_eq in H0, H1. subst a b c.
  assert (no_double_slash (r +:+ "/..") = true) as Hr.
  { apply orb_prop in H as [H|H]; [apply orb_prop in H as [H|H] |].
    - apply string_eqb_true in H. by subst r.
    - apply string_eqb_true in H. by subst r.
    - eapply IH; [| reflexivity | done]. subst n. simpl. lia. }
  rewrite !append_cons.
  change (no_double_slash (String SLASH (String "." (String "." (r +:+ "/.."))))) with
    (negb (Py.startswith (String "." (r +:+ "/..")) "//") && no_double_slash (r +:+ "/..")).
  rewrite Hr. reflexivity.
Qed.

(** On a chain of [/..], a [..] is joined to the path. *)
Lemma myPathJoin_dotdot res :
  dotdot_chain res = true → myPathJoin [res; ".."] = res +:+ "/..".
Proof.
  intros Hc. unfold myPathJoin. cbn [Py.join_slash].
  change (String SLASH "..") with "/..".
  by apply replace_no_double_slash, dotdot_chain_append.
Qed.

Lemma resolveRelative_step_dot res : resolveRelative_step res "." = res.
Proof. done. Qed.

Lemma resolveRelative_drop_dots (segments : list string) proj :
  fold_left resolveRelative_step (filter (λ p, p ≠ ".") segments) proj
  = fold_left resolveRelative_step segments proj.
Proof.
  revert proj. induction segments as [|p l IH]; intros proj; [done |].
  rewrite filter_cons. destruct (decide (p ≠ ".")) as [Hp|Hp]; simpl.
  - apply IH.
  - apply dec_stable in Hp. subst p. rewrite resolveRelative_step_dot. apply IH.
Qed.

(** C2, as the code has it.  [resolveRelative] goes through the segments of
    the path from left to right: a [.] is dropped; a [..] takes the parent of
    the path built so far unless that path is the root or a chain of [/..], and
    there it is joined to the path as it is: the root becomes [/..] and a
    chain grows by [/..]; any other segment is joined.  From [/Proj/Debug/] the path [../../Inc/foo.h] gives
    [/Inc/foo.h]; from [/Proj/] and from [/foo.h] it gives [/../Inc/foo.h]. *)
Theorem resolveRelative_segments :
  (∀ proj path,
     resolveRelative proj path
     = fold_left resolveRelative_step (filter (λ p, p ≠ ".") (Py.split_slash path)) proj)
  ∧ (∀ res, res ≠ "/" → dotdot_chain res = false →
            resolveRelative_step res ".." = getParentDirectory res)
  ∧ resolveRelative_step "/" ".." = "/.."
  ∧ (∀ res, dotdot_chain res = true → resolveRelative_step res ".." = res +:+ "/..")
  ∧ (∀ res p, p ≠ ".." → p ≠ "." → resolveRelative_step res p = myPathJoin [res; p])
  ∧ resolveRelative "/Proj/Debug/" "../../Inc/foo.h" = "/Inc/foo.h"
  ∧ resolveRelative "/Proj/" "../../Inc/foo.h" = "/../Inc/foo.h"
  ∧ resolveRelative "/foo.h" "../../Inc/foo.h" = "/../Inc/foo.h".
Proof.
  split; [intros; symmetry; apply resolveRelative_drop_dots |].
  split.
  { intros res Hroot Hc. unfold resolveRelative_step. rewrite Hc.
    destruct (String.eqb_spec res "/"); [done | done]. }
  split.
  { vm_compute. reflexivity. }
  split.
  { intros res Hc. rewrite <- (myPathJoin_dotdot res Hc).
    unfold resolveRelative_step. rewrite Hc, orb_true_r. done. }
  split.
  { intros res p H1 H2. unfold resolveRelative_step.
    destruct (String.eqb_spec p ".."); [done |].
    destruct (String.eqb_spec p "."); done. }
  repeat split; vm_compute; reflexivity.
Qed.

(** C2 fails as it is stated: on the root a [..] is not dropped, the path
    becomes [/..]. *)
Lemma resolveRelative_root_dotdot :
  resolveRelative "/" ".." = "/.." ∧ resolveRelative "/" ".." ≠ "/".
Proof. split; [vm_compute; reflexivity | vm_compute; discriminate]. Qed.

(** * The layered namespace *)

Lemma Main_init_Ok host_read opts archs st m st' :
  Main_init host_read opts archs st = (Ok m, st') →
  options m = opts
  ∧ archives m = reverse archs
  ∧ names m = ⋃ (Archive_getFilenames <$> reverse archs)
  ∧ lc_names m = set_map Py.lower (names m).
Proof.
  unfold Main_init. destruct (truthy (sysmem_file opts)).
  - destruct (host_read _) as [content|]; [|discriminate].
    unfold report, bind, lift, print, ret. simpl. by intros [= <- _].
  - unfold ret. by intros [= <- _].
Qed.

Lemma elem_of_names host_read opts archs st m st' path :
  Main_init host_read opts archs st = (Ok m, st') →
  path ∈ names m ↔ ∃ a, a ∈ archs ∧ path ∈ Archive_getFilenames a.
Proof.
  intros (_ & _ & -> & _)%Main_init_Ok.
  rewrite elem_of_union_list. split.
  - intros (X & HX & Hp). apply list_elem_of_fmap in HX as (a & -> & Ha).
    exists a. split; [by rewrite elem_of_reverse in Ha | done].
  - intros (a & Ha & Hp). exists (Archive_getFilenames a). split; [|done].
    apply list_elem_of_fmap. exists a. split; [done | by rewrite elem_of_reverse].
Qed.

Lemma omap_reverse {A B} (f : A → option B) (l : list A) :
  omap f (reverse l) = reverse (omap f l).
Proof.
  induction l as [|x l IH]; [done |].
  rewrite reverse_cons, omap_app, IH. simpl.
  destruct (f x); simpl; [by rewrite reverse_cons | by rewrite app_nil_r].
Qed.

(** The content of a path is that of the last archive of the command line
    that can read it. *)
Lemma Main_getFileContent_last host_read opts archs st m st' path :
  Main_init host_read opts archs st = (Ok m, st') →
  path ∈ names m →
  Main_getFileContent m path = last (omap (λ a, Archive_getFileContent a path) archs).
Proof.
  intros Hinit Hp. destruct (Main_init_Ok _ _ _ _ _ _ Hinit) as (_ & Ha & _ & _).
  unfold Main_getFileContent. rewrite bool_decide_true by done.
  rewrite Ha, omap_reverse. apply head_reverse.
Qed.

(** C5.  When two archives hold the same path with contents [c1] and [c2],
    the validator built from the first and then the second reads [c2] at that
    path, the one built in the other order reads [c1], and the path is a name
    of both. *)
Theorem layered_read_later_wins host_read opts (a1 a2 : Archive) (path c1 c2 : string)
    st m st' m' st'' :
  path ∈ Archive_getFilenames a1 →
  path ∈ Archive_getFilenames a2 →
  Archive_getFileContent a1 path = Some c1 →
  Archive_getFileContent a2 path = Some c2 →
  Main_init host_read opts [a1; a2] st = (Ok m, st') →
  Main_init host_read opts [a2; a1] st = (Ok m', st'') →
  Main_getFileContent m path = Some c2
  ∧ Main_getFileContent m' path = Some c1
  ∧ path ∈ names m ∧ path ∈ names m'.
Proof.
  intros H1 H2 Hc1 Hc2 Hm Hm'.
  assert (path ∈ names m) as Hn.
  { eapply elem_of_names; [done |]. exists a1. split; [left | done]. }
  assert (path ∈ names m') as Hn'.
  { eapply elem_of_names; [done |]. exists a1. split; [right; left | done]. }
  split; [|split; [|done]].
  - rewrite (Main_getFileContent_last _ _ _ _ _ _ _ Hm Hn). simpl.
    by rewrite Hc1, Hc2.
  - rewrite (Main_getFileContent_last _ _ _ _ _ _ _ Hm' Hn'). simpl.
    by rewrite Hc1, Hc2.
Qed.

(** * Archives *)








(** * [Archive.__init__] finishes *)














(** * Linked resources *)

Lemma report_hides p st :
  report ("{}: " +:+ tab "{} hides other resources") ["ER051"; p] st
  = (Ok tt, mkState (log st ++ [hides_message p]) (link_validation_cache st)).
Proof. reflexivity. Qed.

Lemma report_wrong_case p st :
  report ("{}: " +:+ tab "{} has wrong case in archive") ["ER049"; p] st
  = (Ok tt, mkState (log st ++ [wrong_case_message p]) (link_validation_cache st)).
Proof. reflexivity. Qed.

Lemma report_missing p st :
  report ("{}: " +:+ tab "{} missing from archive") ["ER050"; p] st
  = (Ok tt, mkState (log st ++ [missing_message p]) (link_validation_cache st)).
Proof. reflexivity. Qed.

Lemma report_hides_false p st :
  (report ("{}: " +:+ tab "{} hides other resources") ["ER051"; p] ;; ret false) st
  = (Ok false, mkState (log st ++ [hides_message p]) (link_validation_cache st)).
Proof. reflexivity. Qed.

(** The check "source exists" looks at the path itself and at nothing
    else. *)
Lemma source_exists_spec m resolved st :
  source_exists m resolved st =
  if bool_decide (resolved ∈ names m) then (Ok true, st)
  else (Ok false,
        mkState (log st ++ [if bool_decide (Py.lower resolved ∈ lc_names m)
                            then wrong_case_message resolved
                            else missing_message resolved])
          (link_validation_cache st)).
Proof.
  unfold source_exists.
  destruct (decide (resolved ∈ names m)) as [Hin|Hin].
  - rewrite bool_decide_false, bool_decide_true by tauto. done.
  - rewrite (bool_decide_true (resolved ∉ names m)), (bool_decide_false (resolved ∈ names m)) by done.
    unfold bind. destruct (bool_decide (Py.lower resolved ∈ lc_names m)).
    + by rewrite report_wrong_case.
    + by rewrite report_missing.
Qed.


(** From a cache that holds no path of the walk, the walk reports the first
    path, going up, that collides, and nothing when there is none. *)
Lemma hides_walk_spec m fuel p valid st :
  String.length p ≤ fuel →
  (∀ q, q ∈ link_validation_cache st → String.length p < String.length q) →
  ∃ cache,
    hides_walk m fuel p valid st =
    match List.find (collides m) (climb fuel p) with
    | Some q => (Ok false, mkState (log st ++ [hides_message q]) cache)
    | None => (Ok valid, mkState (log st) cache)
    end.
Proof.
  revert p st. induction fuel as [|fuel IH]; intros p st Hlen Hcache.
  - assert (p = EmptyString) as -> by (destruct p; [done | simpl in Hlen; lia]).
    cbn [hides_walk climb List.find]. rewrite bool_decide_false.
    2:{ intros Hin. apply Hcache in Hin. simpl in Hin. lia. }
    fold (collides m EmptyString). destruct (collides m EmptyString).
    + rewrite report_hides_false. eauto.
    + simpl. destruct st. eauto.
  - cbn [hides_walk climb List.find]. rewrite bool_decide_false.
    2:{ intros Hin. apply Hcache in Hin. lia. }
    fold (collides m p). destruct (collides m p) eqn:Ec.
    + rewrite report_hides_false. eauto.
    + destruct (String.eqb p EmptyString || String.eqb p "/") eqn:Eroot.
      * simpl. destruct st. eauto.
      * assert (p ≠ EmptyString) as Hne.
        { intros ->. done. }
        pose proof (getParentDirectory_shorter p Hne) as Hs.
        destruct (IH (getParentDirectory p)
                    (mkState (log st) ({[p]} ∪ link_validation_cache st))) as [cache Hw].
        { lia. }
        { simpl. intros q Hq. apply elem_of_union in Hq as [Hq|Hq].
          - apply elem_of_singleton in Hq. by subst.
          - apply Hcache in Hq. lia. }
        rewrite Hw. simpl. eauto.
Qed.

(** * A logic for the log *)

Section Emits.
Context (φ : string → Prop).

Lemma emits_ret {A} (a : A) : emits φ (ret a).
Proof. intros st. exists []. by rewrite app_nil_r. Qed.

Lemma emits_lift {A} (r : result A) : emits φ (lift r).
Proof. intros st. exists []. by rewrite app_nil_r. Qed.

Lemma emits_print s : φ s → emits φ (print s).
Proof. intros Hs st. exists [s]. split; [done | by constructor]. Qed.

Lemma emits_bind {A B} (c : M A) (k : A → M B) :
  emits φ c → (∀ a, emits φ (k a)) → emits φ (bind c k).
Proof.
  intros Hc Hk st. unfold bind. destruct (Hc st) as (n1 & H1 & F1).
  destruct (c st) as [[a|e] st1]; simpl in *.
  - destruct (Hk a st1) as (n2 & H2 & F2). exists (n1 ++ n2).
    split; [by rewrite H2, H1, app_assoc | by apply Forall_app].
  - eauto.
Qed.

Lemma emits_report template code args :
  (∀ args' s, format template (code :: args') = Ok s → φ s) →
  emits φ (report template (code :: args)).
Proof.
  intros H st. unfold report, bind, lift, print.
  destruct (format template (code :: args)) as [s|e] eqn:E; simpl.
  - exists [s]. split; [done |]. constructor; [by eapply H | done].
  - exists []. by rewrite app_nil_r.
Qed.

Lemma emits_flag cond template code args valid :
  (∀ args' s, format template (code :: args') = Ok s → φ s) →
  emits φ (flag cond template (code :: args) valid).
Proof.
  intros H. unfold flag. destruct cond; [|apply emits_ret].
  apply emits_bind; [by apply emits_report | intros; apply emits_ret].
Qed.

Lemma emits_foldM {A B} (f : A → B → M A) (a : A) (l : list B) :
  (∀ a x, emits φ (f a x)) → emits φ (foldM f a l).
Proof.
  intros Hf. revert a. induction l as [|x l IH]; intros a; simpl.
  - apply emits_ret.
  - apply emits_bind; [apply Hf | apply IH].
Qed.

Lemma emits_hides_walk m fuel p valid :
  (∀ q, φ (hides_message q)) → emits φ (hides_walk m fuel p valid).
Proof.
  intros H. revert p. induction fuel as [|fuel IH]; intros p st.
  - cbn [hides_walk]. repeat case_match; try (exists []; by rewrite app_nil_r).
    rewrite report_hides_false. exists [hides_message p]. split; [done | by constructor].
  - cbn [hides_walk]. repeat case_match; try (exists []; by rewrite app_nil_r).
    + rewrite report_hides_false. exists [hides_message p]. split; [done | by constructor].
    + apply (IH _ (mkState (log st) _)).
Qed.
End Emits.

Lemma emits_mono {A} (φ ψ : string → Prop) (c : M A) :
  (∀ s, φ s → ψ s) → emits φ c → emits ψ c.
Proof.
  intros H Hc st. destruct (Hc st) as (new & Hn & F). exists new.
  split; [done |]. eapply Forall_impl; [done | done].
Qed.


Lemma language_weaken (L L' : list string) s :
  (∀ p, p ∈ L → p ∈ L') → language L s → language L' s.
Proof.
  unfold language. rewrite !existsb_exists. intros H (p & Hp & Hs).
  exists p. split; [|done]. apply list_elem_of_In, H, list_elem_of_In, Hp.
Qed.

Lemma clash_startswith p q s :
  clash p q = true → Py.startswith s p = true → Py.startswith s q = false.
Proof.
  unfold Py.startswith. revert q s. induction p as [|a p IH]; intros q s; [done |].
  destruct q as [|b q]; [done |]. destruct s as [|c s]; [done |].
  cbn [clash Py.strip_prefix].
  destruct (Ascii.eqb_spec a c) as [->|Hac]; [|done].
  destruct (Ascii.eqb_spec b c) as [->|Hbc]; [|done].
  rewrite Ascii.eqb_refl. simpl. apply IH.
Qed.

(** A language whose texts all clash with [pfx] has no line that starts with
    [pfx]. *)
Lemma language_avoids (L : list string) (pfx s : string) :
  forallb (λ p, clash p pfx) L = true → language L s → Py.startswith s pfx = false.
Proof.
  unfold language. rewrite forallb_forall, existsb_exists.
  intros Hall (p & Hp & Hs). eapply clash_startswith; [by apply Hall | done].
Qed.

(** * The lines of each part *)

(** The side condition of [emits_report] and [emits_flag] for a language:
    the template and the code are known, so the head of the line is. *)
Ltac emits_side :=
  let args := fresh "args" in
  let s := fresh "s" in
  let Hs := fresh "Hs" in
  intros args s Hs;
  do 4 (try (destruct args as [|? args];
             [first [ discriminate Hs
                    | injection Hs as <-; vm_compute; reflexivity ] |]));
  first [ discriminate Hs | injection Hs as <-; vm_compute; reflexivity ].

Lemma emits_report_raise (φ : string → Prop) template args e :
  format template args = Raise e → emits φ (report template args).
Proof.
  intros E st. unfold report, bind, lift. rewrite E. simpl.
  exists []. by rewrite app_nil_r.
Qed.

Lemma emits_weaken {A} (L L' : list string) (c : M A) :
  forallb (λ p, bool_decide (p ∈ L')) L = true →
  emits (language L) c → emits (language L') c.
Proof.
  intros H. apply emits_mono. intros s. apply language_weaken.
  intros p Hp. rewrite forallb_forall in H.
  apply list_elem_of_In, H in Hp. by apply bool_decide_eq_true in Hp.
Qed.

Ltac emits_with known :=
  repeat first
    [ known
    | apply emits_ret
    | apply emits_lift
    | apply (emits_report_raise _ _ _ IndexError); reflexivity
    | apply emits_flag; emits_side
    | apply emits_report; emits_side
    | apply emits_bind; [|intros ?]
    | apply emits_foldM; intros ? ?
    | progress case_match ].

Ltac emits_go := emits_with fail.

Lemma emits_validateConfigNames proj names valid :
  emits (language NAMES_MESSAGES) (validateConfigNames proj names valid).
Proof. unfold validateConfigNames. emits_go. Qed.

Lemma emits_validateSysmemC m proj :
  emits (language SYSMEM_MESSAGES) (validateSysmemC m proj).
Proof. unfold validateSysmemC. emits_go. Qed.

Lemma emits_validateIncludePathsOption m proj build_path option tool :
  emits (language OPTION_PATH_MESSAGES)
    (validateIncludePathsOption m proj build_path option tool).
Proof. unfold validateIncludePathsOption. emits_go. Qed.

Lemma emits_validateLinkerScriptOption m proj build_path option tool :
  emits (language OPTION_PATH_MESSAGES)
    (validateLinkerScriptOption m proj build_path option tool).
Proof. unfold validateLinkerScriptOption. emits_go. Qed.

Ltac emits_use lemma :=
  eapply emits_weaken; [| apply lemma]; vm_compute; reflexivity.

Lemma emits_validateConfiguration m proj projectName natures mcuFamily valid config :
  emits (language CONFIGURATION_MESSAGES)
    (validateConfiguration m proj projectName natures mcuFamily valid config).
Proof.
  unfold validateConfiguration, validateToolchain, validateOption, validateLevel,
    validateSecureLib, validateInputType.
  emits_with ltac:(first [ emits_use emits_validateIncludePathsOption
                         | emits_use emits_validateLinkerScriptOption ]).
Qed.



Lemma emits_validateSubProject fromstring m proj projectName natures mcuFamily valid :
  emits (language SUBPROJECT_MESSAGES)
    (validateSubProject fromstring m proj projectName natures mcuFamily valid).
Proof. unfold validateSubProject. emits_go. Qed.

(** * Build configurations *)



Lemma flag_run cond template args valid s st :
  format template args = Ok s →
  flag cond template args valid st
  = (Ok (if cond then false else valid),
     mkState (log st ++ (if cond then [s] else [])) (link_validation_cache st)).
Proof.
  intros E. unfold flag, report, bind, lift, print, ret. destruct cond.
  - by rewrite E.
  - rewrite app_nil_r. by destruct st.
Qed.


Lemma no_finding (L : list string) (head : string) (new : list string) :
  forallb (λ p, clash p head) L = true →
  Forall (language L) new → ¬ Exists (is_finding head) new.
Proof.
  intros Hc Hall Hex. apply Exists_exists in Hex as (s & Hin & Hs).
  rewrite Forall_forall in Hall. apply Hall in Hin.
  unfold is_finding in Hs. by rewrite (language_avoids _ _ _ Hc Hin) in Hs.
Qed.

Lemma is_finding_head (head rest : string) : is_finding head (head +:+ rest).
Proof. apply startswith_true. by exists rest. Qed.

Lemma Exists_app_iff {A} (P : A → Prop) (l1 l2 : list A) :
  Exists P (l1 ++ l2) ↔ Exists P l1 ∨ Exists P l2.
Proof. apply Exists_app. Qed.

Lemma Exists_nil_iff {A} (P : A → Prop) : Exists P [] ↔ False.
Proof. apply Exists_nil. Qed.

Lemma Exists_one {A} (P : A → Prop) (x : A) : Exists P [x] ↔ P x.
Proof. rewrite Exists_cons, Exists_nil. tauto. Qed.





Lemma or_middle_iff (A W C : Prop) : ¬ A → ¬ C → (A ∨ W ∨ C ↔ W).
Proof. tauto. Qed.


(** * TrustZone *)

Lemma bind_assoc_run {A B C} (c : M A) (k1 : A → M B) (k2 : B → M C) st :
  bind (bind c k1) k2 st = bind c (λ a, bind (k1 a) k2) st.
Proof. unfold bind. destruct (c st) as [[a|e] st1]; [|done]. done. Qed.

Lemma bind_lift_run {A B} (a : A) (k : A → M B) st : bind (lift (Ok a)) k st = k a st.
Proof. done. Qed.

Lemma bind_run_Ok {A B} (c : M A) (k : A → M B) st a st1 :
  c st = (Ok a, st1) → bind c k st = k a st1.
Proof. unfold bind. by intros ->. Qed.

Lemma determineMcuFamily_singleton mcu f valid st :
  toMcuFamily mcu = Some f →
  determineMcuFamily {[mcu]} valid st = (Ok (valid, Some f), st).
Proof.
  intros Hf. unfold determineMcuFamily.
  assert (({[mcu]} : gset string) ≠ ∅) as Hne by set_solver.
  rewrite (bool_decide_false _ Hne). unfold flag.
  rewrite bind_run_Ok with (a := valid) (st1 := st) by done.
  rewrite elements_singleton, Hf. rewrite bind_lift_run.
  rewrite size_singleton. by rewrite bool_decide_false by lia.
Qed.

Lemma validateTrustZoneChildren_run fromstring m proj natures mcuFamily valid st hs hn :
  is_TrustZone_family mcuFamily = true →
  Some TZ_DISABLED_NATURE ∉ natures →
  childNatureFlags fromstring m proj = Ok (hs, hn) →
  validateTrustZoneChildren fromstring m proj natures mcuFamily valid st
  = (Ok (if hn then (if hs then valid else false) else false),
     mkState (log st ++ pairing_findings proj hs hn) (link_validation_cache st)).
Proof.
  intros Hf Hd Hflags. unfold validateTrustZoneChildren.
  rewrite Hf, (bool_decide_true _ Hd), Hflags. cbn [andb]. rewrite bind_lift_run.
  unfold bind at 1. erewrite flag_run by reflexivity.
  erewrite flag_run by reflexivity. cbn [log link_validation_cache].
  unfold pairing_findings. rewrite <- app_assoc.
  rewrite (append_nil_r proj). by destruct hs, hn.
Qed.

Lemma childNatureFlags_spec fromstring m proj hs hn :
  childNatureFlags fromstring m proj = Ok (hs, hn) →
  let has (nature : string) : Prop :=
    ∃ child natures,
      child ∈ Main_list m (Some proj) isDirectory
      ∧ getEclipseNatures fromstring m child = Ok natures
      ∧ Some nature ∈ natures in
  (hs = true ↔ has SECURE_NATURE) ∧ (hn = true ↔ has NONSECURE_NATURE).
Proof.
  unfold childNatureFlags. generalize (Main_list m (Some proj) isDirectory). intros l.
  assert (∀ a b,
    foldM_result
      (λ '(hasSecureChild, hasNonSecureChild) child,
         childNatures ← getEclipseNatures fromstring m child;
         Ok (hasSecureChild || bool_decide (Some SECURE_NATURE ∈ childNatures),
             hasNonSecureChild || bool_decide (Some NONSECURE_NATURE ∈ childNatures)))
      (a, b) l = Ok (hs, hn) →
    (hs = true ↔ a = true ∨ ∃ child natures, child ∈ l
        ∧ getEclipseNatures fromstring m child = Ok natures ∧ Some SECURE_NATURE ∈ natures)
    ∧ (hn = true ↔ b = true ∨ ∃ child natures, child ∈ l
        ∧ getEclipseNatures fromstring m child = Ok natures
        ∧ Some NONSECURE_NATURE ∈ natures)) as Hgen.
  { induction l as [|child l IH]; intros a b; simpl.
    - intros [= <- <-]. split; (split; [tauto |]).
      + intros [?|(c & n & Hc & _)]; [done | by apply elem_of_nil in Hc].
      + intros [?|(c & n & Hc & _)]; [done | by apply elem_of_nil in Hc].
    - destruct (getEclipseNatures fromstring m child) as [ns|e] eqn:E; [|done]. simpl.
      intros Hrec. destruct (IH _ _ Hrec) as [H1 H2]. split.
      + rewrite H1, orb_true_iff, bool_decide_eq_true. split.
        * intros [[?|?]|(c & n & Hc & Hn & Hin)]; [tauto | |].
          -- right. exists child, ns. split; [left | done].
          -- right. exists c, n. split; [by right | done].
        * intros [?|(c & n & Hc & Hn & Hin)]; [tauto |].
          apply elem_of_cons in Hc as [->|Hc].
          -- left; right. congruence.
          -- right. by exists c, n.
      + rewrite H2, orb_true_iff, bool_decide_eq_true. split.
        * intros [[?|?]|(c & n & Hc & Hn & Hin)]; [tauto | |].
          -- right. exists child, ns. split; [left | done].
          -- right. exists c, n. split; [by right | done].
        * intros [?|(c & n & Hc & Hn & Hin)]; [tauto |].
          apply elem_of_cons in Hc as [->|Hc].
          -- left; right. congruence.
          -- right. by exists c, n. }
  intros H. destruct (Hgen _ _ H) as [H1 H2]. simpl. split.
  - rewrite H1. split; [by intros [?|?] | by right].
  - rewrite H2. split; [by intros [?|?] | by right].
Qed.

Lemma pairing_findings_spec proj hs hn :
  (Exists (is_finding SECURE_MISSING_HEAD) (pairing_findings proj hs hn) ↔ hs = false)
  ∧ (Exists (is_finding NONSECURE_MISSING_HEAD) (pairing_findings proj hs hn) ↔ hn = false).
Proof.
  unfold pairing_findings.
  assert (∀ rest, ¬ is_finding SECURE_MISSING_HEAD (NONSECURE_MISSING_HEAD +:+ rest)
                  ∧ ¬ is_finding NONSECURE_MISSING_HEAD (SECURE_MISSING_HEAD +:+ rest)) as Hno.
  { intros rest. unfold is_finding. split; by vm_compute. }
  pose proof (is_finding_head SECURE_MISSING_HEAD (proj +:+ " ")) as Y1.
  pose proof (is_finding_head NONSECURE_MISSING_HEAD proj) as Y2.
  destruct (Hno proj) as [N1 _]. destruct (Hno (proj +:+ " ")) as [_ N2].
  destruct hs, hn; simpl; rewrite ?Exists_cons, ?Exists_nil; split; split;
    first [ done | intros [?|[?|?]]; done | intros [?|?]; done | intros _; tauto | tauto ].
Qed.

(** A root project of a TrustZone family: the two findings on its children. *)
Lemma validateCubeIDEProject_pairing fromstring m proj st projectName natures mcu f hs hn :
  getEclipseProjectName fromstring m proj = Ok projectName →
  getEclipseNatures fromstring m proj = Ok natures →
  projectMcus fromstring m proj = Ok {[mcu]} →
  toMcuFamily mcu = Some f →
  f = STM32L5 ∨ f = STM32U5 →
  Some ROOT_NATURE ∈ natures →
  Some TZ_DISABLED_NATURE ∉ natures →
  childNatureFlags fromstring m proj = Ok (hs, hn) →
  ∃ after,
    log (validateCubeIDEProject fromstring m proj st).2
    = log st ++ pairing_findings proj hs hn ++ after
    ∧ Forall (language AFTER_PAIRING_MESSAGES) after.
Proof.
  intros Hname Hnat Hmcus Hf Hfam Hroot Hdis Hflags.
  assert (is_TrustZone_family (Some f) = true) as Htz.
  { apply bool_decide_eq_true. destruct Hfam as [-> | ->]; tauto. }
  unfold validateCubeIDEProject, validateProjectNature.
  rewrite Hname, Hnat, Hmcus.
  repeat first [rewrite bind_lift_run | rewrite bind_assoc_run].
  erewrite bind_run_Ok by (by apply determineMcuFamily_singleton).
  cbn beta iota. unfold validateRootProject.
  rewrite (bool_decide_true _ Hroot).
  rewrite !bind_assoc_run.
  erewrite bind_run_Ok by (by apply validateTrustZoneChildren_run).
  match goal with |- context [log (?R ?s).2] =>
    assert (emits (language AFTER_PAIRING_MESSAGES) R) as HR
  end.
  { emits_with ltac:(first [ emits_use emits_validateSysmemC
                           | emits_use emits_validateSubProject
                           | emits_use emits_validateConfigNames
                           | emits_use emits_validateConfiguration ]). }
  match goal with |- context [log (?R ?s).2] =>
    destruct (HR s) as (after & Ha & Fa)
  end.
  exists after. split; [|done]. rewrite Ha. simpl. by rewrite <- app_assoc.
Qed.

(** * Computations that do not raise *)

Section Returns.
Context (φ : string → Prop).

Lemma returns_ret {A} (a : A) : returns φ (ret a).
Proof.
  intros st. exists a, [], (link_validation_cache st).
  rewrite app_nil_r. by destruct st.
Qed.

Lemma returns_lift {A} (a : A) : returns φ (lift (Ok a)).
Proof. apply returns_ret. Qed.

Lemma returns_bind {A B} (c : M A) (k : A → M B) :
  returns φ c → (∀ a, returns φ (k a)) → returns φ (bind c k).
Proof.
  intros Hc Hk st. destruct (Hc st) as (a & n1 & c1 & E1 & F1).
  destruct (Hk a (mkState (log st ++ n1) c1)) as (b & n2 & c2 & E2 & F2).
  exists b, (n1 ++ n2), c2. unfold bind. rewrite E1, E2. simpl.
  rewrite app_assoc. split; [done | by apply Forall_app].
Qed.

Lemma returns_flag cond template code args valid :
  (∃ s, format template (code :: args) = Ok s) →
  (∀ args' s, format template (code :: args') = Ok s → φ s) →
  returns φ (flag cond template (code :: args) valid).
Proof.
  intros [s Hs] H st. rewrite (flag_run _ _ _ _ s) by done.
  eexists _, _, _. split; [done |].
  destruct cond; [|done]. constructor; [by eapply H | done].
Qed.

Lemma returns_foldM {A B} (f : A → B → M A) (a : A) (l : list B) :
  (∀ a x, x ∈ l → returns φ (f a x)) → returns φ (foldM f a l).
Proof.
  revert a. induction l as [|x l IH]; intros a Hf; simpl.
  - apply returns_ret.
  - apply returns_bind; [apply Hf; left |].
    intros a'. apply IH. intros a'' y Hy. apply Hf. by right.
Qed.
End Returns.

Lemma returns_run {A B} (φ : string → Prop) (c : M A) (k : A → M B) st :
  returns φ c →
  ∃ a new cache,
    bind c k st = k a (mkState (log st ++ new) cache) ∧ Forall φ new.
Proof.
  intros Hc. destruct (Hc st) as (a & new & cache & E & F).
  exists a, new, cache. split; [|done]. unfold bind. by rewrite E.
Qed.

Ltac returns_with known :=
  repeat first
    [ known
    | apply returns_ret
    | apply returns_lift
    | apply returns_flag; [eexists; reflexivity | emits_side]
    | apply returns_bind; [|intros ?]
    | progress case_match ].

(** [validateSysmemC] returns when the files it finds can be read. *)
Lemma returns_validateSysmemC m proj :
  (∀ file, file ∈ Main_list m (Some proj) isSysmemC →
           is_Some (Main_getFileContent m file)) →
  returns (language SYSMEM_MESSAGES) (validateSysmemC m proj).
Proof.
  intros Hread. unfold validateSysmemC. apply returns_foldM.
  intros valid file Hfile. destruct (Hread file Hfile) as [content ->].
  returns_with fail.
Qed.

(** * The reference of a non-secure project *)

Lemma bind_ret_run {A B} (a : A) (k : A → M B) st : bind (ret a) k st = k a st.
Proof. done. Qed.

Lemma returns_mono {A} (φ ψ : string → Prop) (c : M A) :
  (∀ s, φ s → ψ s) → returns φ c → returns ψ c.
Proof.
  intros H Hc st. destruct (Hc st) as (a & new & cache & E & F).
  exists a, new, cache. split; [done |]. by eapply Forall_impl.
Qed.

Lemma returns_weaken {A} (L L' : list string) (c : M A) :
  forallb (λ p, bool_decide (p ∈ L')) L = true →
  returns (language L) c → returns (language L') c.
Proof.
  intros H. apply returns_mono. intros s. apply language_weaken.
  intros p Hp. rewrite forallb_forall in H.
  apply list_elem_of_In, H in Hp. by apply bool_decide_eq_true in Hp.
Qed.

Ltac run_step := repeat first [ rewrite bind_lift_run | rewrite bind_ret_run
                              | rewrite bind_assoc_run ]; cbn beta iota.

(** A non-secure project of a TrustZone family, below a project that has a
    name: the finding on its reference to the secure project. *)
Lemma validateCubeIDEProject_reference fromstring m proj st projectName natures mcu f
    root parentNatures parentName refs :
  getEclipseProjectName fromstring m proj = Ok projectName →
  getEclipseNatures fromstring m proj = Ok natures →
  projectMcus fromstring m proj = Ok {[mcu]} →
  toMcuFamily mcu = Some f →
  f = STM32L5 ∨ f = STM32U5 →
  Some ROOT_NATURE ∉ natures →
  Some TZ_DISABLED_NATURE ∉ natures →
  Some NONSECURE_NATURE ∈ natures →
  (∀ file, file ∈ Main_list m (Some proj) isSysmemC →
           is_Some (Main_getFileContent m file)) →
  getDOM fromstring m (myPathJoin [proj; ".cproject"]) = Ok (Some root) →
  getEclipseNatures fromstring m (getParentDirectory proj) = Ok parentNatures →
  getEclipseProjectName fromstring m (getParentDirectory proj) = Ok (Some parentName) →
  getEclipseProjectReferences fromstring m proj = Ok (Some refs) →
  ∃ before after,
    log (validateCubeIDEProject fromstring m proj st).2
    = log st ++ before ++ reference_findings (parentName +:+ "_Secure") refs ++ after
    ∧ Forall (language BEFORE_REFERENCE_MESSAGES) before
    ∧ Forall (language (NAMES_MESSAGES ++ CONFIGURATION_MESSAGES)) after.
Proof.
  intros Hname Hnat Hmcus Hf Hfam Hroot Hdis Hns Hsys Hdom Hpnat Hpname Hrefs.
  assert (is_TrustZone_family (Some f) = true) as Htz.
  { apply bool_decide_eq_true. destruct Hfam as [-> | ->]; tauto. }
  assert (Some f ≠ Some STM32H7) as Hh7.
  { destruct Hfam as [-> | ->]; done. }
  unfold validateCubeIDEProject, validateProjectNature.
  rewrite Hname, Hnat, Hmcus.
  repeat first [rewrite bind_lift_run | rewrite bind_assoc_run].
  erewrite bind_run_Ok by (by apply determineMcuFamily_singleton).
  cbn beta iota. unfold validateRootProject.
  rewrite (bool_decide_false _ Hroot). run_step.
  (* ER018, then sysmem.c *)
  match goal with |- context [bind (flag ?c ?t ?a ?v) ?k ?s] =>
    destruct (returns_run (language BEFORE_REFERENCE_MESSAGES) (flag c t a v) k s)
      as (v1 & n1 & c1 & -> & F1); [returns_with fail |]
  end.
  run_step.
  match goal with |- context [bind (validateSysmemC ?a ?b) ?k ?s] =>
    destruct (returns_run (language BEFORE_REFERENCE_MESSAGES) (validateSysmemC a b) k s)
      as (v2 & n2 & c2 & -> & F2)
  end.
  { eapply returns_weaken; [|by apply returns_validateSysmemC]. vm_compute. reflexivity. }
  run_step. rewrite Hdom. run_step.
  unfold validateSubProject. rewrite (bool_decide_false _ Hh7), Htz. run_step.
  match goal with |- context [bind (flag ?c ?t ?a ?v) ?k ?s] =>
    destruct (returns_run (language BEFORE_REFERENCE_MESSAGES) (flag c t a v) k s)
      as (v3 & n3 & c3 & -> & F3); [returns_with fail |]
  end.
  rewrite (bool_decide_true _ Hdis), Hpnat, Hpname. run_step.
  match goal with |- context [bind (if ?b then ?c else ?d) ?k ?s] =>
    destruct (returns_run (language BEFORE_REFERENCE_MESSAGES) (if b then c else d) k s)
      as (v4 & n4 & c4 & -> & F4); [returns_with fail |]
  end.
  rewrite (bool_decide_true _ Hns), Hrefs. run_step.
  erewrite bind_run_Ok by (apply flag_run; reflexivity). run_step.
  match goal with |- context [log (?R ?s).2] =>
    assert (emits (language (NAMES_MESSAGES ++ CONFIGURATION_MESSAGES)) R) as HR
  end.
  { emits_with ltac:(first [ emits_use emits_validateConfigNames
                           | emits_use emits_validateConfiguration ]). }
  match goal with |- context [log (?R ?s).2] =>
    destruct (HR s) as (after & Ha & Fa)
  end.
  exists (n1 ++ n2 ++ n3 ++ n4), after. split; [|split; [|done]].
  - rewrite Ha. cbn [log]. unfold reference_findings.
    rewrite (append_nil_r (parentName +:+ "_Secure")).
    rewrite <- !app_assoc. reflexivity.
  - repeat (apply Forall_app; split); done.
Qed.

Lemma reference_findings_spec name refs :
  Exists (is_finding REFERENCE_MISSING_HEAD) (reference_findings name refs)
  ↔ Some name ∉ refs.
Proof.
  unfold reference_findings. case_bool_decide as H.
  - rewrite Exists_one. split; [done |]. intros _. apply is_finding_head.
  - rewrite Exists_nil_iff. tauto.
Qed.

(** C7, as the code has it.  For a root project of the family L5 or U5 whose
    TrustZone is not disabled, [validateCubeIDEProject] raises "secure project
    missing" exactly when no directory below the root is a project with the
    secure nature, and "non-secure project missing" exactly when none has the
    non-secure nature: at least one of each is asked for, no more, and the two
    findings do not depend on each other.  For a non-secure project of such a
    family with a [.cproject], below a project named [parentName], it raises
    "missing project reference" exactly when [parentName_Secure] is not among
    the references of the project, whatever else it finds. *)
Theorem trustzone_pairing_and_reference :
  (∀ fromstring m proj st projectName natures mcu f hs hn,
     getEclipseProjectName fromstring m proj = Ok projectName →
     getEclipseNatures fromstring m proj = Ok natures →
     projectMcus fromstring m proj = Ok {[mcu]} →
     toMcuFamily mcu = Some f →
     f = STM32L5 ∨ f = STM32U5 →
     Some ROOT_NATURE ∈ natures →
     Some TZ_DISABLED_NATURE ∉ natures →
     childNatureFlags fromstring m proj = Ok (hs, hn) →
     ∃ new,
       log (validateCubeIDEProject fromstring m proj st).2 = log st ++ new
       ∧ (Exists (is_finding SECURE_MISSING_HEAD) new ↔ hs = false)
       ∧ (Exists (is_finding NONSECURE_MISSING_HEAD) new ↔ hn = false))
  ∧ (∀ fromstring m proj hs hn,
       childNatureFlags fromstring m proj = Ok (hs, hn) →
       let has (nature : string) : Prop :=
         ∃ child natures,
           child ∈ Main_list m (Some proj) isDirectory
           ∧ getEclipseNatures fromstring m child = Ok natures
           ∧ Some nature ∈ natures in
       (hs = true ↔ has SECURE_NATURE) ∧ (hn = true ↔ has NONSECURE_NATURE))
  ∧ (∀ fromstring m proj st projectName natures mcu f root parentNatures parentName refs,
       getEclipseProjectName fromstring m proj = Ok projectName →
       getEclipseNatures fromstring m proj = Ok natures →
       projectMcus fromstring m proj = Ok {[mcu]} →
       toMcuFamily mcu = Some f →
       f = STM32L5 ∨ f = STM32U5 →
       Some ROOT_NATURE ∉ natures →
       Some TZ_DISABLED_NATURE ∉ natures →
       Some NONSECURE_NATURE ∈ natures →
       (∀ file, file ∈ Main_list m (Some proj) isSysmemC →
                is_Some (Main_getFileContent m file)) →
       getDOM fromstring m (myPathJoin [proj; ".cproject"]) = Ok (Some root) →
       getEclipseNatures fromstring m (getParentDirectory proj) = Ok parentNatures →
       getEclipseProjectName fromstring m (getParentDirectory proj) = Ok (Some parentName) →
       getEclipseProjectReferences fromstring m proj = Ok (Some refs) →
       ∃ new,
         log (validateCubeIDEProject fromstring m proj st).2 = log st ++ new
         ∧ (Exists (is_finding REFERENCE_MISSING_HEAD) new
            ↔ Some (parentName +:+ "_Secure") ∉ refs)).
Proof.
  split; [|split].
  - intros fromstring m proj st projectName natures mcu f hs hn
      Hname Hnat Hmcus Hf Hfam Hroot Hdis Hflags.
    destruct (validateCubeIDEProject_pairing fromstring m proj st _ _ _ _ _ _
                Hname Hnat Hmcus Hf Hfam Hroot Hdis Hflags) as (after & Hlog & Fa).
    exists (pairing_findings proj hs hn ++ after). split; [done |].
    destruct (pairing_findings_spec proj hs hn) as [Hs Hn].
    assert (¬ Exists (is_finding SECURE_MISSING_HEAD) after) as N1.
    { eapply no_finding; [|exact Fa]. vm_compute. reflexivity. }
    assert (¬ Exists (is_finding NONSECURE_MISSING_HEAD) after) as N2.
    { eapply no_finding; [|exact Fa]. vm_compute. reflexivity. }
    rewrite !Exists_app_iff, Hs, Hn. clear -N1 N2. split.
    + split; [intros [H|H]; [exact H | destruct (N1 H)] | intros H; left; exact H].
    + split; [intros [H|H]; [exact H | destruct (N2 H)] | intros H; left; exact H].
  - intros fromstring m proj hs hn. apply childNatureFlags_spec.
  - intros fromstring m proj st projectName natures mcu f root parentNatures parentName refs
      Hname Hnat Hmcus Hf Hfam Hroot Hdis Hns Hsys Hdom Hpnat Hpname Hrefs.
    destruct (validateCubeIDEProject_reference fromstring m proj st _ _ _ _ _ _ _ _
                Hname Hnat Hmcus Hf Hfam Hroot Hdis Hns Hsys Hdom Hpnat Hpname Hrefs)
      as (before & after & Hlog & Fb & Fa).
    exists (before ++ reference_findings (parentName +:+ "_Secure") refs ++ after).
    split; [done |].
    assert (¬ Exists (is_finding REFERENCE_MISSING_HEAD) before) as N1.
    { eapply no_finding; [|exact Fb]. vm_compute. reflexivity. }
    assert (¬ Exists (is_finding REFERENCE_MISSING_HEAD) after) as N2.
    { eapply no_finding; [|exact Fa]. vm_compute. reflexivity. }
    rewrite !Exists_app_iff, reference_findings_spec.
    exact (or_middle_iff _ _ _ N1 N2).
Qed.

(** The archive [tz_no_secure]: the root has a non-secure child and no
    secure one, and the only finding is "secure project missing". *)
Lemma trustzone_pairing_witness :
  (∃ new,
     log (validateCubeIDEProject (fromstring_of tz_docs) (validator_of tz_no_secure)
            "/Demo/STM32CubeIDE/" st0).2 = log st0 ++ new
     ∧ (Exists (is_finding SECURE_MISSING_HEAD) new ↔ false = false)
     ∧ (Exists (is_finding NONSECURE_MISSING_HEAD) new ↔ true = false))
  ∧ log (validateCubeIDEProject (fromstring_of tz_docs) (validator_of tz_no_secure)
           "/Demo/STM32CubeIDE/" st0).2
    = [SECURE_MISSING_HEAD +:+ "/Demo/STM32CubeIDE/ "].
Proof.
  split; [|vm_compute; reflexivity].
  apply (proj1 trustzone_pairing_and_reference (fromstring_of tz_docs)
           (validator_of tz_no_secure) "/Demo/STM32CubeIDE/" st0
           (Some "Demo") {[Some ROOT_NATURE]} "STM32L552ZETxQ" STM32L5 false true).
  - vm_compute. reflexivity.
  - vm_compute. reflexivity.
  - vm_compute. reflexivity.
  - vm_compute. reflexivity.
  - left. reflexivity.
  - apply (bool_decide_unpack _). vm_compute. exact I.
  - apply (bool_decide_unpack _). vm_compute. exact I.
  - vm_compute. reflexivity.
Defined.

(** C7 fails as it is stated: a root with two secure children and a
    non-secure one is accepted, and so is each of its three children. *)
Lemma two_secure_children_accepted :
  let fromstring := fromstring_of tz_docs in
  let m := validator_of tz_two_secure in
  (Some SECURE_NATURE ∈@{gset (option string)}
     default ∅ (match getEclipseNatures fromstring m "/Demo/STM32CubeIDE/Secure/" with
                | Ok n => Some n | Raise _ => None end))
  ∧ (Some SECURE_NATURE ∈@{gset (option string)}
       default ∅ (match getEclipseNatures fromstring m "/Demo/STM32CubeIDE/Secure2/" with
                  | Ok n => Some n | Raise _ => None end))
  ∧ Forall (λ proj, validateCubeIDEProject fromstring m proj st0 = (Ok true, st0))
      ["/Demo/STM32CubeIDE/"; "/Demo/STM32CubeIDE/Secure/";
       "/Demo/STM32CubeIDE/Secure2/"; "/Demo/STM32CubeIDE/NonSecure/"].
Proof.
  intros fromstring m. split; [|split].
  - apply (bool_decide_unpack _). vm_compute. exact I.
  - apply (bool_decide_unpack _). vm_compute. exact I.
  - repeat constructor; vm_compute; reflexivity.
Qed.

(** * File links *)

Lemma validateFileLink_log m proj src dest resolved st :
  resolveLink proj (Some src) = Ok resolved →
  link_validation_cache st = ∅ →
  log (validateFileLink m proj (Some src) (Some dest) st).2
  = log st ++ source_findings m resolved ++ walk_findings m (myPathJoin [proj; dest]).
Proof.
  intros Hres Hcache. unfold validateFileLink. rewrite Hres. run_step.
  unfold bind at 1. rewrite source_exists_spec. unfold source_findings, walk_findings.
  cbn [myPathJoin_opt]. set (p := myPathJoin [proj; dest]).
  destruct (bool_decide (resolved ∈ names m)).
  - rewrite bind_lift_run.
    destruct (hides_walk_spec m (String.length p) p true st) as [cache ->];
      [done | rewrite Hcache; set_solver |].
    destruct (List.find _ _); simpl; [done | by rewrite app_nil_r].
  - rewrite bind_lift_run.
    match goal with |- context [hides_walk m _ p false ?s] =>
      destruct (hides_walk_spec m (String.length p) p false s) as [cache ->];
        [done | simpl; rewrite Hcache; set_solver |]
    end.
    destruct (List.find _ _); simpl; [by rewrite <- app_assoc | done].
Qed.



(** * Symbolic paths *)

Lemma skip_quote_cases value :
  value = skip_quote value ∨ value = String DQUOTE (skip_quote value).
Proof.
  destruct value as [|c r]; [by left |]. simpl.
  destruct (Ascii.eqb_spec c DQUOTE) as [->|_]; [by right | by left].
Qed.

Lemma match_parent_loc_variable value :
  match_workspace_variable value = true → match_parent_loc value = None.
Proof.
  unfold match_workspace_variable. intros H.
  apply orb_true_iff in H as [H|H]; apply startswith_true in H as [r H];
    destruct (skip_quote_cases value) as [E|E]; rewrite E, H; reflexivity.
Qed.

(** C4, as the code has it.  For a value that starts (behind an optional
    quotation mark) with [${workspace_loc:] or [${ProjName] and is not of the
    shape [${workspace_loc:/${ProjName}/...}], [__resolve] answers [None],
    "cannot verify", for every project and build path.  [resolveLink] has no
    such answer: it returns the value as it is, and the check of the link
    source then looks it up among the names like any path, and reports it
    with the wrong case or as missing from the archive when it is not a
    name. *)
Theorem workspace_variable_resolution (value : string) :
  match_workspace_variable value = true →
  match_workspace_projname value = None →
  (∀ proj build_path, resolve proj build_path (Some value) = Ok None)
  ∧ (∀ proj, resolveLink proj (Some value) = Ok value)
  ∧ (∀ m proj dest st,
       link_validation_cache st = ∅ →
       log (validateFileLink m proj (Some value) (Some dest) st).2
       = log st ++ source_findings m value ++ walk_findings m (myPathJoin [proj; dest]))
  ∧ (∀ m, value ∉ names m →
          source_findings m value
          = [if bool_decide (Py.lower value ∈ lc_names m)
             then wrong_case_message value else missing_message value]).
Proof.
  intros Hvar Hproj.
  assert (∀ proj, resolveLink proj (Some value) = Ok value) as Hlink.
  { intros proj. unfold resolveLink. by rewrite match_parent_loc_variable. }
  split; [|split; [done |split]].
  - intros proj build_path. unfold resolve. by rewrite Hproj, Hvar.
  - intros m proj dest st Hcache. by apply validateFileLink_log.
  - intros m Hn. unfold source_findings. by rewrite bool_decide_false.
Qed.

Lemma workspace_variable_resolution_witness :
  resolve "/P/" "/P/Debug" (Some "${workspace_loc:/Other/foo.c}") = Ok None
  ∧ resolveLink "/P/" (Some "${workspace_loc:/Other/foo.c}")
    = Ok "${workspace_loc:/Other/foo.c}".
Proof.
  destruct (workspace_variable_resolution "${workspace_loc:/Other/foo.c}")
    as (H1 & H2 & _); [reflexivity | reflexivity |].
  split; [apply H1 | apply H2].
Defined.

(** C4 fails as it is stated.  A link to [${workspace_loc:/Other/foo.c}] is
    not answered with "cannot verify": [resolveLink] returns the text, and
    the link is reported as missing from the archive, with code ER050.  The
    same value as a linker script or as an include path is not reported at
    all: the template of the message has four fields and is given three
    arguments, so [str.format] raises [IndexError] and nothing is printed. *)
Lemma workspace_link_reported_missing :
  resolveLink "/" (Some "${workspace_loc:/Other/foo.c}") = Ok "${workspace_loc:/Other/foo.c}"
  ∧ validateFileLink inc_validator "/" (Some "${workspace_loc:/Other/foo.c}") (Some "foo.c") st0
    = (Ok false,
       mkState ["ER050: " +:+ tab "${workspace_loc:/Other/foo.c} missing from archive"]
         {["/foo.c"]})
  ∧ validateLinkerScriptOption inc_validator "/P/" "/P/Debug"
      (Elem "option" {["value" := "${workspace_loc:/Other/foo.ld}"]} None []) "C" st0
    = (Raise IndexError, st0)
  ∧ validateIncludePathsOption inc_validator "/P/" "/P/Debug"
      (Elem "option" ∅ None
         [Elem "listOptionValue" {["value" := "${workspace_loc:/Other/Inc}"]} None []])
      "C" st0
    = (Raise IndexError, st0).
Proof. repeat split; vm_compute; reflexivity. Qed.

(** * The layered namespace: an example *)

Lemma layered_read_later_wins_witness :
  Main_getFileContent (validator_of_archives [layer1; layer2]) "/a/b.txt" = Some "two"
  ∧ Main_getFileContent (validator_of_archives [layer2; layer1]) "/a/b.txt" = Some "one"
  ∧ "/a/b.txt" ∈ names (validator_of_archives [layer1; layer2])
  ∧ "/a/b.txt" ∈ names (validator_of_archives [layer2; layer1]).
Proof.
  apply (layered_read_later_wins (λ _, None) no_options layer1 layer2 "/a/b.txt" "one" "two"
           st0 _ st0 _ st0).
  - apply (bool_decide_unpack _). vm_compute. exact I.
  - apply (bool_decide_unpack _). vm_compute. exact I.
  - vm_compute. reflexivity.
  - vm_compute. reflexivity.
  - vm_compute. reflexivity.
  - vm_compute. reflexivity.
Defined.


(** * The fingerprint of [sysmem.c] *)

Lemma sub_block_comments_no_slash s :
  no_slash s = true → sub_block_comments 0 s = s.
Proof.
  induction s as [|c r IH]; [done |].
  cbn [no_slash]. intros [Hc Hr]%andb_true_iff. apply negb_true_iff in Hc.
  unfold is_slash in Hc. rewrite Ascii.eqb_sym in Hc.
  cbn [sub_block_comments sub_line_comment Py.strip_prefix]. unfold SLASH in Hc.
  rewrite Hc. cbn. by rewrite IH.
Qed.

Lemma sub_line_comment_no_slash s :
  no_slash s = true → sub_line_comment s = s.
Proof.
  induction s as [|c r IH]; [done |].
  cbn [no_slash]. intros [Hc Hr]%andb_true_iff. apply negb_true_iff in Hc.
  unfold is_slash in Hc. rewrite Ascii.eqb_sym in Hc.
  cbn [sub_block_comments sub_line_comment Py.strip_prefix]. unfold SLASH in Hc.
  rewrite Hc. cbn. by rewrite IH.
Qed.

Lemma sysmem_normal_form_no_slash s :
  no_slash s = true → sysmem_normal_form s = sub_cr s.
Proof.
  intros H. unfold sysmem_normal_form.
  by rewrite sub_block_comments_no_slash, sub_line_comment_no_slash.
Qed.

Lemma sub_cr_no_cr s : sub_cr (sub_cr s) = sub_cr s.
Proof.
  induction s as [|c r IH]; [done |]. simpl.
  destruct (Ascii.eqb c CR) eqn:E; [done |]. simpl. by rewrite E, IH.
Qed.

Lemma sysmem_findings_cons m file files :
  sysmem_findings m (file :: files)
  = (if sysmem_matches m file then [] else [sysmem_message file]) ++ sysmem_findings m files.
Proof.
  unfold sysmem_findings. rewrite filter_cons.
  destruct (sysmem_matches m file); case_decide; done.
Qed.

Lemma validateSysmemC_fold m files valid st :
  (∀ file, file ∈ files → is_Some (Main_getFileContent m file)) →
  foldM (λ valid sysmemFile,
           match Main_getFileContent m sysmemFile with
           | None => lift (Raise TypeError)
           | Some content =>
               flag (negb (String.eqb (SYSMEM_C_HASH m) (toSysmemHash content)))
                 ("{} : " +:+ tab "Unexpected sysmem.c content located at {}")
                 ["ER035"; sysmemFile] valid
           end) valid files st
  = (Ok (valid && forallb (sysmem_matches m) files),
     mkState (log st ++ sysmem_findings m files) (link_validation_cache st)).
Proof.
  revert valid st. induction files as [|file files IH]; intros valid st Hread.
  - simpl. unfold ret, sysmem_findings. simpl.
    rewrite app_nil_r, andb_true_r. by destruct st.
  - simpl. unfold bind at 1.
    destruct (Hread file) as [content Hc]; [left |].
    rewrite Hc.
    rewrite (flag_run _ _ _ _ (sysmem_message file)) by (vm_compute; by rewrite append_nil_r).
    rewrite IH by (intros f Hf; apply Hread; by right).
    rewrite sysmem_findings_cons. cbn [forallb log link_validation_cache].
    assert (sysmem_matches m file = String.eqb (SYSMEM_C_HASH m) (toSysmemHash content)) as ->
      by (unfold sysmem_matches; by rewrite Hc).
    destruct (String.eqb _ _); cbn [negb].
    + by rewrite app_nil_r.
    + by rewrite andb_false_r, <- app_assoc.
Qed.

(** C8, as the code has it.  [validateSysmemC] returns whether the digest of
    every file named [sysmem.c] under the project is the reference digest,
    and prints one line for every file whose digest is another; the
    reference is [f757d275b06e3ed0cab2a4da40a6b131] unless the caller gives a
    file, whose digest then takes its place.  The digest is taken of the
    content without its carriage returns and block comments; of the line
    comments only one that starts in the last line is left out, so two
    contents that differ in a line comment of an earlier line have different
    digests. *)
Theorem sysmem_fingerprint :
  (∀ m proj st,
     (∀ file, file ∈ Main_list m (Some proj) isSysmemC →
              is_Some (Main_getFileContent m file)) →
     validateSysmemC m proj st
     = (Ok (forallb (sysmem_matches m) (Main_list m (Some proj) isSysmemC)),
        mkState (log st ++ sysmem_findings m (Main_list m (Some proj) isSysmemC))
          (link_validation_cache st)))
  ∧ (∀ host_read opts archs st m st',
       Main_init host_read opts archs st = (Ok m, st') →
       SYSMEM_C_HASH m
       = if truthy (sysmem_file opts)
         then default EmptyString (toSysmemHash <$> host_read (str_opt (sysmem_file opts)))
         else "f757d275b06e3ed0cab2a4da40a6b131")
  ∧ (∀ s, no_slash s = true → sysmem_normal_form s = sub_cr s)
  ∧ (∀ s, sub_cr (sub_cr s) = sub_cr s)
  ∧ sysmem_normal_form ("int a; /* x */" +:+ String CR (String LF ("int b; // y" +:+ String CR (String LF EmptyString))))
    = "int a; " +:+ String LF ("int b; " +:+ String LF EmptyString)
  ∧ sysmem_normal_form ("int a; // x" +:+ String LF ("int b;" +:+ String LF EmptyString))
    = "int a; // x" +:+ String LF ("int b;" +:+ String LF EmptyString)
  ∧ toSysmemHash ("int a; // x" +:+ String LF ("int b;" +:+ String LF EmptyString))
    = "9296e912554ddb4f5cc29809714c0d9d"
  ∧ toSysmemHash ("int a; // y" +:+ String LF ("int b;" +:+ String LF EmptyString))
    = "10182365c64696ba880114b3528d3328".
Proof.
  split; [|split; [|split; [|split; [|split; [|split; [|split]]]]]].
  - intros m proj st Hread. unfold validateSysmemC.
    by rewrite validateSysmemC_fold.
  - intros host_read opts archs st m st'. unfold Main_init.
    destruct (truthy (sysmem_file opts)).
    + destruct (host_read _) as [content|]; [|discriminate].
      unfold report, bind, lift, print, ret. simpl. by intros [= <- _].
    + unfold ret. by intros [= <- _].
  - apply sysmem_normal_form_no_slash.
  - apply sub_cr_no_cr.
  - vm_compute. reflexivity.
  - vm_compute. reflexivity.
  - vm_compute. reflexivity.
  - vm_compute. reflexivity.
Qed.

(** * The run *)

Section RunFacts.
Variable fromstring : string → option Element.
Variable re_match : string → string → bool.
Variable host_read : string → option string.
Variable validateEclipseProject : Main → string → M bool.
Variable validateScript : Main → string → M bool.

Lemma validateProject_Ok m t f fl fs proj st acc st' :
  validateProject fromstring validateEclipseProject m (t, f, fl, fs) proj st = (Ok acc, st') →
  ∃ fs', acc = (S t,
                if not_eclipse fromstring m proj then S f else f,
                fl ++ (if not_eclipse fromstring m proj then [proj] else []),
                fs').
Proof.
  unfold validateProject, not_eclipse. unfold bind at 1, lift.
  destruct (isEclipseBasedIde fromstring m proj) as [[|]|e]; [| |discriminate].
  - unfold bind at 1.
    destruct (foldM _ _ _ _) as [[fs'|e] st1]; [|discriminate].
    unfold ret. intros [= <- _]. exists fs'. by rewrite app_nil_r.
  - unfold report, bind, lift, print, ret. simpl. intros [= <- _]. by exists fs.
Qed.

Lemma foldM_validateProject m l : ∀ t f fl fs st t' f' fl' fs' st',
  foldM (validateProject fromstring validateEclipseProject m) (t, f, fl, fs) l st
  = (Ok (t', f', fl', fs'), st') →
  fl' = fl ++ filter (λ p, not_eclipse fromstring m p = true) l
  ∧ f' + length fl = f + length fl'
  ∧ t' = t + length l.
Proof.
  induction l as [|proj l IH]; intros t f fl fs st t' f' fl' fs' st'.
  - simpl. unfold ret. intros [= <- <- <- _]. rewrite app_nil_r. simpl. split; [done | lia].
  - cbn [foldM]. unfold bind at 1.
    destruct (validateProject _ _ _ _ _ _) as [[acc|e] st1] eqn:E; [|discriminate].
    apply validateProject_Ok in E as [fs1 ->]. intros H.
    apply IH in H as (-> & Hf & ->). rewrite filter_cons.
    destruct (not_eclipse fromstring m proj); case_decide; try done.
    + rewrite <- app_assoc. simpl.
      split; [done |]. rewrite !length_app in *. simpl in *. lia.
    + rewrite app_nil_r in *.
      split; [done |]. simpl. lia.
Qed.

Lemma foldM_validateOneScript m l : ∀ t f fl st t' f' fl' st',
  foldM (validateOneScript validateScript m) (t, f, fl) l st = (Ok (t', f', fl'), st') →
  fl' = fl ++ failed_scripts_of validateScript m l st
  ∧ f' + length fl = f + length fl'
  ∧ t' = t + length l.
Proof.
  induction l as [|script l IH]; intros t f fl st t' f' fl' st'.
  - simpl. unfold ret. intros [= <- <- <- _]. rewrite app_nil_r. simpl. split; [done | lia].
  - cbn [foldM failed_scripts_of]. unfold bind at 1. unfold validateOneScript at 1.
    unfold bind at 1.
    destruct (validateScript m script st) as [[ok|e] st1]; [|discriminate].
    unfold ret at 1. destruct ok; intros H; apply IH in H as (-> & Hf & ->).
    + simpl. split; [done |]. lia.
    + rewrite <- app_assoc. simpl. split; [done |].
      rewrite !length_app in *. simpl in *. lia.
Qed.

Lemma format_counts (a b c d : string) :
  format ("* Number of failed " +:+ a +:+ " : {} out of {} ") [b; c] = Ok d →
  True.
Proof. done. Qed.

(** What a run that comes to its end returns and prints. *)
Lemma main_Ok opts archs elapsed st s st' :
  main fromstring re_match host_read validateEclipseProject validateScript
    opts archs elapsed st = (Ok s, st') →
  ∃ m st1 acc st2 scripts,
    Main_init host_read opts archs st = (Ok m, st1)
    ∧ foldM (validateProject fromstring validateEclipseProject m) (0, 0, [], 0)
        (project_list re_match opts m) st1 = (Ok acc, st2)
    ∧ script_list re_match opts m = Ok scripts
    ∧ listof_failed_projects s
      = filter (λ p, not_eclipse fromstring m p = true) (project_list re_match opts m)
    ∧ listof_failed_scripts s = failed_scripts_of validateScript m scripts st2
    ∧ failed_subproj s = acc.2
    ∧ failed_proj s = length (listof_failed_projects s)
    ∧ failed_scripts s = length (listof_failed_scripts s)
    ∧ total_projects s = length (project_list re_match opts m)
    ∧ total_scripts s = length scripts
    ∧ ∃ pre, log st'
             = pre ++ [verdict_line s; runtime_line elapsed;
                       count_line "projects" (failed_proj s) (total_projects s);
                       count_line "scripts" (failed_scripts s) (total_scripts s)].
Proof.
  unfold main. unfold bind at 1.
  destruct (Main_init host_read opts archs st) as [[m|e] st1] eqn:Hinit; [|discriminate].
  fold (project_list re_match opts m). unfold bind at 1.
  destruct (foldM (validateProject _ _ m) _ _ st1) as [[[[[tp fp] lp] fs]|e] st2] eqn:Hp;
    [|discriminate].
  unfold bind at 1. fold (script_list re_match opts m). unfold lift at 1.
  destruct (script_list re_match opts m) as [scripts|e] eqn:Hs; [|discriminate].
  unfold bind at 1.
  destruct (foldM (validateOneScript _ m) _ _ st2) as [[[[ts fsc] ls]|e] st3] eqn:Hsc;
    [|discriminate].
  pose proof Hp as Hp'. apply foldM_validateProject in Hp' as (Hlp & Hfp & Htp).
  apply foldM_validateOneScript in Hsc as (Hls & Hfsc & Hts).
  simpl in Hlp, Hfp, Htp, Hls, Hfsc, Hts.
  intros H. exists m, st1, (tp, fp, lp, fs), st2, scripts.
  assert (s = mkSummary fp fsc tp fs ts lp ls
          ∧ log st' = log st3 ++ [verdict_line (mkSummary fp fsc tp fs ts lp ls);
                                  runtime_line elapsed;
                                  count_line "projects" fp tp;
                                  count_line "scripts" fsc ts]) as [-> Hlog].
  { revert H. unfold verdict_line, runtime_line, count_line. cbn [listof_failed_scripts listof_failed_projects].
    generalize (pretty fp) (pretty tp) (pretty fsc) (pretty ts). intros a b c d.
    assert (bool_decide (length ls ≠ 0) || bool_decide (length lp ≠ 0)
            = bool_decide (ls ≠ [] ∨ lp ≠ [])) as ->.
    { apply eq_true_iff_eq. rewrite orb_true_iff, !bool_decide_eq_true.
      destruct ls, lp; simpl; intuition congruence. }
    unfold report, bind, lift, print, ret.
    destruct (bool_decide _); simpl; intros [= <- <-]; simpl;
      (split; [done |]); rewrite <- !app_assoc; reflexivity. }
  simpl. split_and!; try done; try lia.
  by exists (log st3).
Qed.

End RunFacts.

(** C1, as the code has it.  A run that comes to its end prints the verdict
    "FAILED VALIDATION" when the list of failed projects or the list of
    failed scripts is not empty, and "SUCCESSFUL VALIDATION" otherwise.  The
    failed projects are the projects of the run that are not based on
    Eclipse (code ER100); the failed scripts are those for which
    [validateScript] returned false.  What [validateEclipseProject] returns
    for the sub-projects is counted in [failed_subproj], which the verdict
    does not read: the archive with the sub-project
    [/Demo/STM32CubeIDE/RemoteSystemsTempFiles/] has the finding ER001
    (printed twice, the sub-project being validated twice), one failed
    sub-project, and the verdict "SUCCESSFUL VALIDATION". *)
Theorem subproject_findings_not_in_verdict :
  (∀ fromstring re_match host_read validateEclipseProject validateScript
     opts archs elapsed st s st',
     main fromstring re_match host_read validateEclipseProject validateScript
       opts archs elapsed st = (Ok s, st') →
     ∃ m st1 acc st2 scripts,
       Main_init host_read opts archs st = (Ok m, st1)
       ∧ foldM (validateProject fromstring validateEclipseProject m) (0, 0, [], 0)
           (project_list re_match opts m) st1 = (Ok acc, st2)
       ∧ script_list re_match opts m = Ok scripts
       ∧ listof_failed_projects s
         = filter (λ p, not_eclipse fromstring m p = true) (project_list re_match opts m)
       ∧ listof_failed_scripts s = failed_scripts_of validateScript m scripts st2
       ∧ failed_subproj s = acc.2
       ∧ failed_proj s = length (listof_failed_projects s)
       ∧ failed_scripts s = length (listof_failed_scripts s)
       ∧ total_projects s = length (project_list re_match opts m)
       ∧ total_scripts s = length scripts
       ∧ ∃ pre, log st'
                = pre ++ [verdict_line s; runtime_line elapsed;
                          count_line "projects" (failed_proj s) (total_projects s);
                          count_line "scripts" (failed_scripts s) (total_scripts s)])
  ∧ (∀ re_match host_read rest validateScript elapsed,
       main (fromstring_of [dot_project "RemoteSystemsTempFiles" [] []]) re_match host_read
         (validateEclipseProject_head
            (fromstring_of [dot_project "RemoteSystemsTempFiles" [] []]) rest)
         validateScript no_options [archive_of remote_files] elapsed st0
       = (Ok (mkSummary 0 0 1 1 0 [] []),
          mkState ["ER001: " +:+ tab " Sub-project should be removed!";
                   "ER001: " +:+ tab " Sub-project should be removed!";
                   SUCCESSFUL_VALIDATION;
                   runtime_line elapsed;
                   count_line "projects" 0 1;
                   count_line "scripts" 0 0] ∅)).
Proof.
  split.
  - intros. by eapply main_Ok.
  - intros. vm_compute. reflexivity.
Qed.
